(** * Control-point protocol of [examples/process/command_points.py]

    A shallow embedding of the Control Command hierarchy.  Every method of
    the source is a program in a small free monad [Prog] whose nodes are the
    calls the source makes into its collaborators (the coordination store of
    [ip_communication], [os.fork], [os._exit], numpy, torch and the trace
    engine).  Two interpreters run such programs against an explicit
    [World]: [run] follows one process, and [run_all] runs a whole process
    tree. *)

From Stdlib Require Import ZArith List String Bool Lia.
Import ListNotations.
Local Open Scope string_scope.
Local Open Scope list_scope.
Local Open Scope Z_scope.

Set Implicit Arguments.

(** ** Values *)

Definition Uuid := nat.
Definition Site := string.
Definition Handle := nat.

(** The classes of the module.  An instance carries the attributes its
    [__init__] stores: [clone_count], [seed], [uuid_on_sample]. *)
Inductive Cmd : Type :=
| ControlCommand
| ForkContinueCommand
| CloneCommand (clone_count : Z)
| ResampleCloneContinueCommand (seed : option Z) (clone_count : Z)
| ResampleForkContinueCommand (seed : option Z) (uuid_on_sample : bool)
| LogPdfCommand
| KillCommand.

(** Python values that travel through the protocol: messages are dicts keyed
    by field name, and a wake-up payload is any value at all. *)
Unset Elimination Schemes.
Inductive PyVal : Type :=
| PyNone
| PyBool (b : bool)
| PyInt (z : Z)
| PyStr (s : string)
| PyDict (items : list (string * PyVal))
| PyCmd (c : Cmd).
Set Elimination Schemes.

(** A trace: ordered mapping from site name to message. *)
Definition Trace := list (string * PyVal).

Inductive Exn : Type :=
| AssertionError (msg : string)
| NotImplementedError (msg : string)
| TypeError (msg : string)
| KeyError (key : string)
| AttributeError (name : string)
| OSError (msg : string)
| StoreError (msg : string)
| ValueError (msg : string)
| RuntimeError (msg : string).

(** Extra positional and keyword arguments ([*args], [**kwargs]). *)
Record Extra : Type := MkExtra {
  ex_args : list PyVal;
  ex_kwargs : list (string * PyVal)
}.

Definition no_extra : Extra := MkExtra [] [].
Definition one_arg (v : PyVal) : Extra := MkExtra [v] [].

(** [issubclass(type(v), ControlCommand)] *)
Definition is_control_command (v : PyVal) : bool :=
  match v with PyCmd _ => true | _ => false end.

(** [v == s] for a string literal [s]. *)
Definition py_eq_str (v : PyVal) (s : string) : bool :=
  match v with PyStr t => String.eqb t s | _ => false end.

Fixpoint dict_get (items : list (string * PyVal)) (k : string) : option PyVal :=
  match items with
  | [] => None
  | (k', v) :: rest => if String.eqb k' k then Some v else dict_get rest k
  end.

(** [v[k]]: a missing key raises [KeyError], a value that is not a dict
    raises [TypeError]. *)
Definition py_getitem (v : PyVal) (k : string) : Exn + PyVal :=
  match v with
  | PyDict items =>
      match dict_get items k with
      | Some x => inr x
      | None => inl (KeyError k)
      end
  | _ => inl (TypeError "object is not subscriptable")
  end.

(** Binding of the call [f(trace_uuid, site_name, trace_poutine, *args,
    **kwargs)] to the signature [(self, trace_uuid, site_name,
    trace_poutine, msg)] of [ResampleForkContinueCommand]. *)
Definition bind_msg (extra : Extra) : Exn + PyVal :=
  match ex_args extra, ex_kwargs extra with
  | [m], [] => inr m
  | [], [(k, m)] =>
      if String.eqb k "msg" then inr m
      else inl (TypeError "unexpected keyword argument")
  | [], [] => inl (TypeError "missing 1 required positional argument: 'msg'")
  | _, _ => inl (TypeError "wrong number of arguments")
  end.

(** [numpy.random.seed(s)] takes [None] and the integers from 0 to
    2**32 - 1; any other integer makes it raise [ValueError]. *)
Definition np_seed_ok (seed : option Z) : bool :=
  match seed with
  | None => true
  | Some s => (0 <=? s) && (s <=? 4294967295)
  end.

(** [torch.manual_seed(s)] takes the integers from -2**63 to 2**64 - 1;
    any other makes it raise [RuntimeError]. *)
Definition torch_seed_ok (s : Z) : bool :=
  (-9223372036854775808 <=? s) && (s <=? 18446744073709551615).

Arguments np_seed_ok : simpl never.
Arguments torch_seed_ok : simpl never.

Definition np_seed_failure : Exn :=
  ValueError "Seed must be between 0 and 2**32 - 1".

Definition torch_seed_failure : Exn :=
  RuntimeError "Overflow when unpacking long".

(** ** Collaborators

    [ip_communication], pickle, numpy, torch and the trace engine are not
    part of the module; they are taken as an interface. *)
Class Backend : Type := {
  Key : Type;
  PairKey : Type;
  Blob : Type;
  NpState : Type;
  TorchState : Type;
  (** [RTraces.get_trace_key(trace_uuid, site_name)] *)
  get_trace_key : Uuid -> Site -> Key;
  (** [RPairs.get_pair_name(parent, child, site_name)] *)
  get_pair_name : Uuid -> Uuid -> Site -> PairKey;
  (** [pickle.dumps] *)
  dumps : PyVal -> Blob;
  (** state of numpy's global generator after [numpy.random.seed(s)] *)
  np_seeded : Z -> NpState;
  (** [numpy.random.randint(lo, hi)]: the draw and the next state *)
  np_randint : NpState -> Z -> Z -> Z * NpState;
  (** the draw is from [lo] (inclusive) to [hi] (exclusive) *)
  np_randint_range :
    forall (st : NpState) (lo hi : Z),
      lo < hi -> lo <= fst (np_randint st lo hi) < hi;
  (** state of torch's global generator after [torch.manual_seed(s)] *)
  torch_seeded : Z -> TorchState;
  (** [trace_poutine._pyro_sample(msg)]: the trace after resampling, and the
      generator states it leaves behind *)
  pyro_sample : Trace -> PyVal -> NpState -> TorchState ->
                Trace * NpState * TorchState;
  (** [trace_poutine.batch_log_pdf()] *)
  batch_log_pdf : Trace -> PyVal
}.

Inductive Service : Type := RLock | RTraces | RPairs | RMessages.

Section Protocol.

Context {B : Backend}.

(** What [print] is given. *)
Inductive Shown : Type :=
| ShUuid (u : Uuid)
| ShSite (s : Site)
| ShKey (k : Key)
| ShVal (v : PyVal)
| ShPoutine.

(** ** Programs *)

(** The calls a method makes, indexed by the type of what they return. *)
Inductive Eff : Type -> Type :=
| Print (fmt : string) (args : list Shown) : Eff unit
| Connect (svc : Service) : Eff Handle
| AddLockAndWait (h : Handle) (k : Key) : Eff PyVal
| SetTrace (h : Handle) (u : Uuid) (s : Site) (b : Blob) : Eff Handle
| AddPairUuids (h : Handle) (pk : PairKey) : Eff Handle
| SetMsg (h : Handle) (k : Key) (b : Blob) : Eff Handle
| KillConnection (h : Handle) : Eff unit
| GetUuid : Eff Uuid
| NpSeed (s : option Z) : Eff unit
| NpRandint (lo hi : Z) : Eff Z
| TorchManualSeed (s : Z) : Eff unit
| ReadTrace : Eff Trace
| SetTraceUuid (u : Uuid) : Eff unit
| PyroSample (msg : PyVal) : Eff unit
| BatchLogPdf : Eff PyVal.

(** A program either returns, raises (nothing in the module catches an
    exception), leaves through [os._exit], runs out of dispatch fuel, calls
    a collaborator, or forks. *)
Inductive Prog (A : Type) : Type :=
| Ret (a : A)
| Raise (e : Exn)
| OsExit (code : Z)
| OutOfFuel
| Vis (X : Type) (e : Eff X) (k : X -> Prog A)
| Fork (k : Z -> Prog A).

Arguments Ret {A} a.
Arguments Raise {A} e.
Arguments OsExit {A} code.
Arguments OutOfFuel {A}.
Arguments Vis {A X} e k.
Arguments Fork {A} k.

Fixpoint bind {A C : Type} (m : Prog A) (f : A -> Prog C) : Prog C :=
  match m with
  | Ret a => f a
  | Raise e => Raise e
  | OsExit c => OsExit c
  | OutOfFuel => OutOfFuel
  | Vis e k => Vis e (fun x => bind (k x) f)
  | Fork k => Fork (fun pid => bind (k pid) f)
  end.

Definition call {X : Type} (e : Eff X) : Prog X := Vis e (fun x => Ret x).

Definition lift {A : Type} (r : Exn + A) : Prog A :=
  match r with inl e => Raise e | inr a => Ret a end.

(** [assert cond, msg] *)
Definition py_assert (cond : bool) (msg : string) : Prog unit :=
  if cond then Ret tt else Raise (AssertionError msg).

End Protocol.

Arguments Ret {B A} a.
Arguments Raise {B A} e.
Arguments OsExit {B A} code.
Arguments OutOfFuel {B A}.
Arguments Vis {B A X} e k.
Arguments Fork {B A} k.

Declare Scope prog_scope.
Delimit Scope prog_scope with prog.
Notation "x <- m ;; k" := (bind m (fun x => k))
  (at level 61, m at next level, right associativity) : prog_scope.
Notation "m ;; k" := (bind m (fun _ => k))
  (at level 61, right associativity) : prog_scope.
Local Open Scope prog_scope.

(** ** The methods of the module *)

Section Methods.

Context {B : Backend}.

Definition print (fmt : string) (args : list Shown) : Prog unit :=
  call (Print fmt args).

(** The type of [wake_command.execute_control_site]: what a woken process
    hands control to. *)
Definition Dispatch : Type := Cmd -> Uuid -> Site -> Extra -> Prog PyVal.

(** [ControlCommand.wait_on_lock] *)
Definition wait_on_lock (trace_uuid : Uuid) (site_name : Site) : Prog PyVal :=
  let lock_uuid := get_trace_key trace_uuid site_name in
  locker <- call (Connect RLock) ;;
  print "Waiting on lock: {}" [ShKey lock_uuid] ;;
  wake_command <- call (AddLockAndWait locker lock_uuid) ;;
  print "Released from lock: {}" [ShKey lock_uuid] ;;
  call (KillConnection locker) ;;
  Ret wake_command.

(** [ForkContinueCommand.serialize_trace] *)
Definition ForkContinue_serialize_trace
    (trace_uuid : Uuid) (site_name : Site) (trace_dict : Trace) : Prog unit :=
  let trace_str := dumps (PyDict trace_dict) in
  conn <- call (Connect RTraces) ;;
  conn <- call (SetTrace conn trace_uuid site_name trace_str) ;;
  call (KillConnection conn).

(** [self.serialize_trace], resolved along the class of [self]:
    [CloneCommand] overrides it with [pass]. *)
Definition serialize_trace (self : Cmd)
    (trace_uuid : Uuid) (site_name : Site) (trace_dict : Trace) : Prog unit :=
  match self with
  | ForkContinueCommand | ResampleForkContinueCommand _ _ =>
      ForkContinue_serialize_trace trace_uuid site_name trace_dict
  | CloneCommand _ | ResampleCloneContinueCommand _ _ => Ret tt
  | _ => Raise (AttributeError "serialize_trace")
  end.

(** [ForkContinueCommand.child_fct] *)
Definition ForkContinue_child_fct (dispatch : Dispatch)
    (trace_uuid : Uuid) (site_name : Site) (extra : Extra) : Prog PyVal :=
  wake_command <- wait_on_lock trace_uuid site_name ;;
  py_assert (is_control_command wake_command)
            "Lock must be behavior for lock release" ;;
  match wake_command with
  | PyCmd c => dispatch c trace_uuid site_name extra
  | _ => Raise (AttributeError "execute_control_site")
  end.

(** [ForkContinueCommand.parent_fct]: [pass] *)
Definition ForkContinue_parent_fct : Prog PyVal := Ret PyNone.

(** [ForkContinueCommand.execute_control_site], with the two methods it
    calls on [self] passed in. *)
Definition ForkContinue_execute (self : Cmd)
    (parent_fct child_fct : Uuid -> Site -> Extra -> Prog PyVal)
    (trace_uuid : Uuid) (site_name : Site) (extra : Extra) : Prog PyVal :=
  print "Fork/Continue at site: {}, {}, {}"
        [ShUuid trace_uuid; ShSite site_name; ShPoutine] ;;
  trace_dict <- call ReadTrace ;;
  serialize_trace self trace_uuid site_name trace_dict ;;
  Fork (fun pid =>
    if pid =? 0
    then child_fct trace_uuid site_name extra
    else parent_fct trace_uuid site_name extra).

(** The part of [ResampleForkContinueCommand.execute_control_site] that
    runs when [uuid_on_sample] holds; it yields the trace-id the rest of the
    method uses. *)
Definition fresh_trace_uuid (trace_uuid : Uuid) (site_name : Site) : Prog Uuid :=
  child_trace_uuid <- call GetUuid ;;
  let pair_key := get_pair_name trace_uuid child_trace_uuid site_name in
  call (SetTraceUuid child_trace_uuid) ;;
  conn <- call (Connect RPairs) ;;
  conn <- call (AddPairUuids conn pair_key) ;;
  call (KillConnection conn) ;;
  Ret child_trace_uuid.

(** [ResampleForkContinueCommand.execute_control_site]; [dispatch] is what
    the child of the final fork does with the command that wakes it. *)
Definition ResampleForkContinue_execute (dispatch : Dispatch)
    (seed : option Z) (uuid_on_sample : bool)
    (trace_uuid : Uuid) (site_name : Site) (extra : Extra) : Prog PyVal :=
  msg <- lift (bind_msg extra) ;;
  call (NpSeed seed) ;;
  torch_seed <- match seed with
                | Some s => Ret s
                | None => call (NpRandint 0 10000000)
                end ;;
  call (TorchManualSeed torch_seed) ;;
  print "Conducting: {}" [ShVal msg] ;;
  msg_type <- lift (py_getitem msg "type") ;;
  py_assert (py_eq_str msg_type "sample")
            "Cannot execute a resample at a non-sample node" ;;
  print "Resampling: {}" [ShSite site_name] ;;
  call (PyroSample msg) ;;
  trace_uuid <- (if uuid_on_sample
                 then fresh_trace_uuid trace_uuid site_name
                 else Ret trace_uuid) ;;
  ForkContinue_execute (ResampleForkContinueCommand seed uuid_on_sample)
    (fun _ _ _ => ForkContinue_parent_fct)
    (ForkContinue_child_fct dispatch)
    trace_uuid site_name (one_arg msg).

(** [self.child_fct] for the classes that have one:
    [ResampleCloneContinueCommand] replaces the wait by an immediate
    [ResampleForkContinueCommand(self.seed, uuid_on_sample=False)]. *)
Definition child_fct (dispatch : Dispatch) (self : Cmd)
    (trace_uuid : Uuid) (site_name : Site) (extra : Extra) : Prog PyVal :=
  match self with
  | ResampleCloneContinueCommand seed _ =>
      ResampleForkContinue_execute dispatch seed false
        trace_uuid site_name extra
  | ForkContinueCommand | CloneCommand _ | ResampleForkContinueCommand _ _ =>
      ForkContinue_child_fct dispatch trace_uuid site_name extra
  | _ => Raise (AttributeError "child_fct")
  end.

(** The [for] loop of [CloneCommand.parent_fct], [n] iterations left.  The
    branch [pid == 0] has no [return] or exit of its own: when
    [self.child_fct] returns, control goes on to the next iteration. *)
Fixpoint clone_loop (dispatch : Dispatch) (self : Cmd) (n : nat)
    (trace_uuid : Uuid) (site_name : Site) (extra : Extra) : Prog unit :=
  match n with
  | O => Ret tt
  | S n' =>
      child_trace_uuid <- call GetUuid ;;
      let pair_key := get_pair_name trace_uuid child_trace_uuid site_name in
      Fork (fun pid =>
        (if pid =? 0
         then
           call (SetTraceUuid child_trace_uuid) ;;
           conn <- call (Connect RPairs) ;;
           conn <- call (AddPairUuids conn pair_key) ;;
           call (KillConnection conn) ;;
           child_fct dispatch self child_trace_uuid site_name extra ;;
           Ret tt
         else Ret tt) ;;
        clone_loop dispatch self n' trace_uuid site_name extra)
  end.

(** [range(self.clone_count)] *)
Definition range_len (clone_count : Z) : nat := Z.to_nat clone_count.

(** [CloneCommand.parent_fct] *)
Definition Clone_parent_fct (dispatch : Dispatch) (self : Cmd)
    (clone_count : Z)
    (trace_uuid : Uuid) (site_name : Site) (extra : Extra) : Prog PyVal :=
  clone_loop dispatch self (range_len clone_count)
             trace_uuid site_name extra ;;
  OsExit 0.

(** [self.parent_fct] *)
Definition parent_fct (dispatch : Dispatch) (self : Cmd)
    (trace_uuid : Uuid) (site_name : Site) (extra : Extra) : Prog PyVal :=
  match self with
  | ForkContinueCommand | ResampleForkContinueCommand _ _ =>
      ForkContinue_parent_fct
  | CloneCommand n | ResampleCloneContinueCommand _ n =>
      Clone_parent_fct dispatch self n trace_uuid site_name extra
  | _ => Raise (AttributeError "parent_fct")
  end.

(** [LogPdfCommand.execute_control_site] *)
Definition LogPdf_execute (dispatch : Dispatch)
    (trace_uuid : Uuid) (site_name : Site) (extra : Extra) : Prog PyVal :=
  let log_uuid := get_trace_key trace_uuid site_name in
  trace_pdf <- call BatchLogPdf ;;
  conn <- call (Connect RMessages) ;;
  conn <- call (SetMsg conn log_uuid
                       (dumps (PyDict [("log_pdf", trace_pdf)]))) ;;
  call (KillConnection conn) ;;
  wake_command <- wait_on_lock trace_uuid site_name ;;
  py_assert (is_control_command wake_command)
            "Lock must be behavior for lock release" ;;
  match wake_command with
  | PyCmd c => dispatch c trace_uuid site_name extra
  | _ => Raise (AttributeError "execute_control_site")
  end.

(** [self.execute_control_site(trace_uuid, site_name, trace_poutine, *args,
    **kwargs)].  [fuel] bounds how many woken commands are dispatched in
    turn; the method of [self] itself always runs. *)
Fixpoint execute_control_site (fuel : nat) (self : Cmd)
    (trace_uuid : Uuid) (site_name : Site) (extra : Extra) : Prog PyVal :=
  let dispatch : Dispatch :=
    match fuel with
    | O => fun _ _ _ _ => OutOfFuel
    | S fuel' => execute_control_site fuel'
    end in
  match self with
  | ControlCommand => Raise (NotImplementedError "Abstract class")
  | ForkContinueCommand | CloneCommand _ | ResampleCloneContinueCommand _ _ =>
      ForkContinue_execute self
        (parent_fct dispatch self) (child_fct dispatch self)
        trace_uuid site_name extra
  | ResampleForkContinueCommand seed uuid_on_sample =>
      ResampleForkContinue_execute dispatch seed uuid_on_sample
        trace_uuid site_name extra
  | LogPdfCommand => LogPdf_execute dispatch trace_uuid site_name extra
  | KillCommand => OsExit 0
  end.

(** What a woken process does with the payload at fuel [fuel]. *)
Definition dispatch_at (fuel : nat) : Dispatch :=
  match fuel with
  | O => fun _ _ _ _ => OutOfFuel
  | S fuel' => execute_control_site fuel'
  end.

(** [add_control_point] *)
Definition add_control_point (fuel : nat)
    (trace_uuid : Uuid) (site_name : Site) (ctrl_behavior : Cmd)
    (extra : Extra) : Prog PyVal :=
  execute_control_site fuel ctrl_behavior trace_uuid site_name extra.

End Methods.

(** ** The world a process runs in *)

Section Semantics.

Context {B : Backend}.

(** What [add_lock_and_wait] does for one waiter: it delivers the payload of
    a waker, fails, or never returns. *)
Inductive Wake : Type :=
| Deliver (payload : PyVal)
| WaitFails (e : Exn)
| Never.

(** One entry per call that left the process. *)
Inductive Event : Type :=
| EvPrint (fmt : string) (args : list Shown)
| EvConnect (svc : Service) (h : Handle)
| EvWait (h : Handle) (k : Key) (w : Wake)
| EvSetTrace (h : Handle) (u : Uuid) (s : Site) (b : Blob)
| EvAddPair (h : Handle) (pk : PairKey)
| EvSetMsg (h : Handle) (k : Key) (b : Blob)
| EvKill (h : Handle)
| EvUuid (u : Uuid)
| EvFork (pid : Z)
| EvForkFailed
| EvSeed (s : option Z)
| EvRandint (lo hi drawn : Z)
| EvManualSeed (s : Z)
| EvSetTraceUuid (u : Uuid)
| EvPyroSample (msg : PyVal)
| EvBatchLogPdf (v : PyVal)
| EvExit (code : Z).

(** The state around one process.  [poutine_trace] and [poutine_uuid] are
    the object every method receives as [trace_poutine]; [np_rng] and
    [torch_rng] are the global generators of the two libraries.  [pids] and
    [wakes] say what the successive calls of [os.fork] and
    [add_lock_and_wait] give this process; [os_entropy] is what
    [numpy.random.seed(None)] would pick up at a given moment. *)
Record World : Type := MkWorld {
  poutine_trace : Trace;
  poutine_uuid : option Uuid;
  np_rng : NpState;
  torch_rng : TorchState;
  os_entropy : nat -> NpState;
  next_uuid : nat;
  next_handle : nat;
  next_pid : Z;
  pids : list Z;
  wakes : list Wake;
  log : list Event
}.

Definition emit (ev : Event) (w : World) : World :=
  match w with
  | MkWorld tr u np t ent nu nh npid ps ws l =>
      MkWorld tr u np t ent nu nh npid ps ws (l ++ [ev])
  end.

Definition set_poutine (tr : Trace) (u : option Uuid) (w : World) : World :=
  match w with
  | MkWorld _ _ np t ent nu nh npid ps ws l =>
      MkWorld tr u np t ent nu nh npid ps ws l
  end.

Definition set_rng (np : NpState) (t : TorchState) (w : World) : World :=
  match w with
  | MkWorld tr u _ _ ent nu nh npid ps ws l =>
      MkWorld tr u np t ent nu nh npid ps ws l
  end.

Definition set_next_uuid (n : nat) (w : World) : World :=
  match w with
  | MkWorld tr u np t ent _ nh npid ps ws l =>
      MkWorld tr u np t ent n nh npid ps ws l
  end.

Definition set_next_handle (n : nat) (w : World) : World :=
  match w with
  | MkWorld tr u np t ent nu _ npid ps ws l =>
      MkWorld tr u np t ent nu n npid ps ws l
  end.

Definition set_next_pid (p : Z) (w : World) : World :=
  match w with
  | MkWorld tr u np t ent nu nh _ ps ws l =>
      MkWorld tr u np t ent nu nh p ps ws l
  end.

Definition set_pids (ps : list Z) (w : World) : World :=
  match w with
  | MkWorld tr u np t ent nu nh npid _ ws l =>
      MkWorld tr u np t ent nu nh npid ps ws l
  end.

Definition set_wakes (ws : list Wake) (w : World) : World :=
  match w with
  | MkWorld tr u np t ent nu nh npid ps _ l =>
      MkWorld tr u np t ent nu nh npid ps ws l
  end.

(** What a call gives back. *)
Inductive Reply (X : Type) : Type :=
| Ans (x : X)
| Throws (e : Exn)
| Blocks.

Arguments Ans {X} x.
Arguments Throws {X} e.
Arguments Blocks {X}.

(** Modelled from the spec: the coordination store and [get_uuid] of
    [ip_communication] are not in the repository.  A connection is a fresh
    handle; [set_trace], [add_pair_uuids] and [set_msg] write and give back
    the connection they were called on; [add_lock_and_wait] gives what the
    waker delivers; [get_uuid] issues a token not issued before.  The
    numeric libraries and the engine act through the interface [Backend];
    a seed outside the range of its library makes the seeding raise and
    leaves the generators as they were. *)
Definition handle {X : Type} (e : Eff X) (w : World) : Reply X * World :=
  match e in Eff X return Reply X * World with
  | Print fmt args => (Ans tt, emit (EvPrint fmt args) w)
  | Connect svc =>
      let h := next_handle w in
      (Ans h, emit (EvConnect svc h) (set_next_handle (S h) w))
  | AddLockAndWait h k =>
      match wakes w with
      | Deliver v :: ws => (Ans v, emit (EvWait h k (Deliver v)) (set_wakes ws w))
      | WaitFails ex :: ws =>
          (Throws ex, emit (EvWait h k (WaitFails ex)) (set_wakes ws w))
      | Never :: ws => (Blocks, emit (EvWait h k Never) (set_wakes ws w))
      | [] => (Blocks, emit (EvWait h k Never) w)
      end
  | SetTrace h u s b => (Ans h, emit (EvSetTrace h u s b) w)
  | AddPairUuids h pk => (Ans h, emit (EvAddPair h pk) w)
  | SetMsg h k b => (Ans h, emit (EvSetMsg h k b) w)
  | KillConnection h => (Ans tt, emit (EvKill h) w)
  | GetUuid =>
      let u := next_uuid w in
      (Ans u, emit (EvUuid u) (set_next_uuid (S u) w))
  | NpSeed s =>
      if np_seed_ok s then
        let np := match s with
                  | Some z => np_seeded z
                  | None => os_entropy w (List.length (log w))
                  end in
        (Ans tt, emit (EvSeed s) (set_rng np (torch_rng w) w))
      else (Throws np_seed_failure, w)
  | NpRandint lo hi =>
      let '(z, np) := np_randint (np_rng w) lo hi in
      (Ans z, emit (EvRandint lo hi z) (set_rng np (torch_rng w) w))
  | TorchManualSeed s =>
      if torch_seed_ok s then
        (Ans tt, emit (EvManualSeed s) (set_rng (np_rng w) (torch_seeded s) w))
      else (Throws torch_seed_failure, w)
  | ReadTrace => (Ans (poutine_trace w), w)
  | SetTraceUuid u =>
      (Ans tt, emit (EvSetTraceUuid u) (set_poutine (poutine_trace w) (Some u) w))
  | PyroSample msg =>
      let '(tr, np, t) :=
        pyro_sample (poutine_trace w) msg (np_rng w) (torch_rng w) in
      (Ans tt, emit (EvPyroSample msg)
                    (set_rng np t (set_poutine tr (poutine_uuid w) w)))
  | BatchLogPdf =>
      let v := batch_log_pdf (poutine_trace w) in
      (Ans v, emit (EvBatchLogPdf v) w)
  end.

(** How a process ends. *)
Inductive Final (A : Type) : Type :=
| Returned (a : A)
| Raised (e : Exn)
| Exited (code : Z)
| Parked
| FuelOut.

Arguments Returned {A} a.
Arguments Raised {A} e.
Arguments Exited {A} code.
Arguments Parked {A}.
Arguments FuelOut {A}.

(** One process: [os.fork] gives it the next entry of [pids] (0 makes it
    the child from there on), and fails when none is left. *)
Fixpoint run {A : Type} (p : Prog A) (w : World) : Final A * World :=
  match p with
  | Ret a => (Returned a, w)
  | Raise e => (Raised e, w)
  | OsExit c => (Exited c, emit (EvExit c) w)
  | OutOfFuel => (FuelOut, w)
  | Vis e k =>
      match handle e w with
      | (Ans x, w') => run (k x) w'
      | (Throws ex, w') => (Raised ex, w')
      | (Blocks, w') => (Parked, w')
      end
  | Fork k =>
      match pids w with
      | pid :: ps => run (k pid) (emit (EvFork pid) (set_pids ps w))
      | [] => (Raised (OSError "fork"), emit EvForkFailed w)
      end
  end.

(** What the parent keeps of its own after a fork: the child worked on a
    copy of the trace object and of the generators. *)
Definition resume_parent (before after : World) : World :=
  set_rng (np_rng before) (torch_rng before)
    (set_poutine (poutine_trace before) (poutine_uuid before) after).

(** The whole process tree, the child of every fork scheduled before its
    parent goes on.  Both share the store, the log and the supplies of
    tokens; [wakes] is consumed in the order the processes reach their
    waits.  The result lists how each process ended, children first. *)
Fixpoint run_all {A : Type} (p : Prog A) (w : World)
  : list (Final A) * World :=
  match p with
  | Ret a => ([Returned a], w)
  | Raise e => ([Raised e], w)
  | OsExit c => ([Exited c], emit (EvExit c) w)
  | OutOfFuel => ([FuelOut], w)
  | Vis e k =>
      match handle e w with
      | (Ans x, w') => run_all (k x) w'
      | (Throws ex, w') => ([Raised ex], w')
      | (Blocks, w') => ([Parked], w')
      end
  | Fork k =>
      let pid := next_pid w in
      let w0 := set_next_pid (pid + 1) w in
      let '(fc, wc) := run_all (k 0) (emit (EvFork 0) w0) in
      let '(fp, wp) := run_all (k pid) (emit (EvFork pid) (resume_parent w0 wc)) in
      (fc ++ fp, wp)
  end.

(** ** Readings of the log *)

Definition uuids_of (l : list Event) : list Uuid :=
  flat_map (fun ev => match ev with EvUuid u => [u] | _ => [] end) l.

Definition pairs_of (l : list Event) : list PairKey :=
  flat_map (fun ev => match ev with EvAddPair _ pk => [pk] | _ => [] end) l.

Definition waits_of (l : list Event) : list Key :=
  flat_map (fun ev => match ev with EvWait _ k _ => [k] | _ => [] end) l.

Definition is_store_write (ev : Event) : bool :=
  match ev with
  | EvSetTrace _ _ _ _ | EvAddPair _ _ | EvSetMsg _ _ _ => true
  | _ => false
  end.

Definition is_trace_mutation (ev : Event) : bool :=
  match ev with
  | EvPyroSample _ | EvSetTraceUuid _ => true
  | _ => false
  end.

(** Connections opened in [l] and not killed later in [l]. *)
Fixpoint open_handles (l : list Event) : list Handle :=
  match l with
  | [] => []
  | EvConnect _ h :: rest =>
      if existsb (fun ev => match ev with
                            | EvKill h' => Nat.eqb h h'
                            | _ => false
                            end) rest
      then open_handles rest
      else h :: open_handles rest
  | _ :: rest => open_handles rest
  end.

End Semantics.

Arguments Ans {X} x.
Arguments Throws {X} e.
Arguments Blocks {X}.
Arguments Returned {A} a.
Arguments Raised {A} e.
Arguments Exited {A} code.
Arguments Parked {A}.
Arguments FuelOut {A}.

(** ** What the logs and worlds of the properties are made of *)

Section Observations.

Context {B : Backend}.

(** What [bind m f] does once [m] has ended in [r]. *)
Definition and_then {A C : Type} (r : Final A * World) (f : A -> Prog C)
  : Final C * World :=
  match r with
  | (Returned a, w) => run (f a) w
  | (Raised e, w) => (Raised e, w)
  | (Exited c, w) => (Exited c, w)
  | (Parked, w) => (Parked, w)
  | (FuelOut, w) => (FuelOut, w)
  end.

Definition wait_events (h : Handle) (k : Key) (wk : Wake) : list Event :=
  [EvConnect RLock h; EvPrint "Waiting on lock: {}" [ShKey k]; EvWait h k wk].

Definition release_events (h : Handle) (k : Key) : list Event :=
  [EvPrint "Released from lock: {}" [ShKey k]; EvKill h].

(** The world a waiter is in once [wait_on_lock] has returned. *)
Definition woken (k : Key) (v : PyVal) (ws : list Wake) (w : World) : World :=
  let h := next_handle w in
  MkWorld (poutine_trace w) (poutine_uuid w) (np_rng w) (torch_rng w)
          (os_entropy w) (next_uuid w) (S h) (next_pid w) (pids w) ws
          (log w ++ wait_events h k (Deliver v) ++ release_events h k).

(** What [ForkContinueCommand.execute_control_site] does before it forks. *)
Definition persist_events (h : Handle) (u : Uuid) (s : Site) (tr : Trace)
  : list Event :=
  [EvPrint "Fork/Continue at site: {}, {}, {}" [ShUuid u; ShSite s; ShPoutine];
   EvConnect RTraces h;
   EvSetTrace h u s (dumps (PyDict tr));
   EvKill h].

(** What the next wait of a process is answered with. *)
Definition next_wake (w : World) : Wake :=
  match wakes w with
  | wk :: _ => wk
  | [] => Never
  end.

(** What [LogPdfCommand.execute_control_site] does before it parks: [v] is
    the value [batch_log_pdf()] returned. *)
Definition publish_events (h : Handle) (k : Key) (v : PyVal) : list Event :=
  [EvBatchLogPdf v;
   EvConnect RMessages h;
   EvSetMsg h k (dumps (PyDict [("log_pdf", v)]));
   EvKill h].

(** The value [torch.manual_seed] is called with and the state numpy's
    generator is in after the first two statements of
    [ResampleForkContinueCommand.execute_control_site]. *)
Definition reseed (seed : option Z) (w : World) : Z * NpState :=
  match seed with
  | Some s => (s, np_seeded s)
  | None => np_randint (os_entropy w (List.length (log w))) 0 10000000
  end.

Definition seed_events (seed : option Z) (w : World) : list Event :=
  match seed with
  | Some s => [EvSeed (Some s); EvManualSeed s]
  | None => [EvSeed None;
             EvRandint 0 10000000 (fst (reseed None w));
             EvManualSeed (fst (reseed None w))]
  end.

(** The world right after these two statements, for a seed numpy takes. *)
Definition seeded (seed : option Z) (w : World) : World :=
  MkWorld (poutine_trace w) (poutine_uuid w)
          (snd (reseed seed w)) (torch_seeded (fst (reseed seed w)))
          (os_entropy w) (next_uuid w) (next_handle w) (next_pid w)
          (pids w) (wakes w) (log w ++ seed_events seed w).

Definition resample_failure : Exn :=
  AssertionError "Cannot execute a resample at a non-sample node".

Definition resample_events (seed : option Z) (site_name : Site) (msg : PyVal)
    (w : World) : list Event :=
  seed_events seed w ++
  [EvPrint "Conducting: {}" [ShVal msg];
   EvPrint "Resampling: {}" [ShSite site_name];
   EvPyroSample msg].

(** What the branch [if self.uuid_on_sample] adds. *)
Definition pairing_events (h : Handle) (old new : Uuid) (site_name : Site)
  : list Event :=
  [EvUuid new; EvSetTraceUuid new; EvConnect RPairs h;
   EvAddPair h (get_pair_name old new site_name); EvKill h].

(** The trace object and the generators right after [_pyro_sample(msg)]. *)
Definition resampled (seed : option Z) (msg : PyVal) (w : World)
  : Trace * NpState * TorchState :=
  pyro_sample (poutine_trace w) msg
              (snd (reseed seed w)) (torch_seeded (fst (reseed seed w))).

(** A process is followed as itself when every [os.fork] it still makes
    returns the pid of a child. *)
Definition own_process (w : World) : Prop :=
  Forall (fun pid => pid <> 0) (pids w).

Definition is_wait {X : Type} (e : Eff X) : bool :=
  match e with AddLockAndWait _ _ => true | _ => false end.

(** Programs that never reach [add_lock_and_wait] as long as the process is
    the parent of its forks. *)
Inductive waitless {A : Type} : Prog A -> Prop :=
| waitless_ret (a : A) : waitless (Ret a)
| waitless_raise (e : Exn) : waitless (Raise e)
| waitless_exit (c : Z) : waitless (OsExit c)
| waitless_fuel : waitless OutOfFuel
| waitless_vis (X : Type) (e : Eff X) (k : X -> Prog A) :
    is_wait e = false -> (forall x, waitless (k x)) -> waitless (Vis e k)
| waitless_fork (k : Z -> Prog A) :
    (forall pid, pid <> 0 -> waitless (k pid)) -> waitless (Fork k).

(** The spec's reading of a child of [ResampleCloneContinueCommand]: it
    executes [ResampleForkContinueCommand(seed, uuid_on_sample=False)] on
    what it was given. *)
Definition spec_resample_clone_child (fuel : nat) (seed : option Z)
    (trace_uuid : Uuid) (site_name : Site) (extra : Extra) : Prog PyVal :=
  execute_control_site fuel (ResampleForkContinueCommand seed false)
    trace_uuid site_name extra.

End Observations.

(** ** Further readings of the log *)

Section StoreViews.

Context {B : Backend}.

(** Modelled from the spec: [set_trace]/[get_trace] are keyed by
    (trace_id, site) and the last write wins.  [trace_slot l u s] is what
    [get_trace(u, s)] would give after the calls recorded in [l]. *)
Fixpoint trace_slot (l : list Event) (u : Uuid) (s : Site) : option Blob :=
  match l with
  | [] => None
  | ev :: rest =>
      match trace_slot rest u s with
      | Some b => Some b
      | None =>
          match ev with
          | EvSetTrace _ u' s' b =>
              if Nat.eqb u' u && String.eqb s' s then Some b else None
          | _ => None
          end
      end
  end.

(** A program that cannot run out of dispatch fuel in a process that has
    fewer than [n] wake-ups left. *)
Definition bounded {A : Type} (n : nat) (p : Prog A) : Prop :=
  forall w : World,
    (List.length (wakes w) < n)%nat -> fst (run p w) <> FuelOut.

(** The method [self.execute_control_site] resolves to, with what it does
    with a woken command passed in. *)
Definition execute_with (dispatch : Dispatch) (self : Cmd)
    (trace_uuid : Uuid) (site_name : Site) (extra : Extra) : Prog PyVal :=
  match self with
  | ControlCommand => Raise (NotImplementedError "Abstract class")
  | ForkContinueCommand | CloneCommand _ | ResampleCloneContinueCommand _ _ =>
      ForkContinue_execute self
        (parent_fct dispatch self) (child_fct dispatch self)
        trace_uuid site_name extra
  | ResampleForkContinueCommand seed uuid_on_sample =>
      ResampleForkContinue_execute dispatch seed uuid_on_sample
        trace_uuid site_name extra
  | LogPdfCommand => LogPdf_execute dispatch trace_uuid site_name extra
  | KillCommand => OsExit 0
  end.

End StoreViews.

(** ** A concrete backend

    Keys are the tuples they are derived from, pickling is the identity, a
    generator state is a counter, and resampling records the two generator
    states at the site named by the message. *)

Definition demo_site_of (msg : PyVal) : string :=
  match py_getitem msg "name" with
  | inr (PyStr s) => s
  | _ => "?"
  end.

#[export] Instance demo_backend : Backend := {|
  Key := Uuid * Site;
  PairKey := Uuid * Uuid * Site;
  Blob := PyVal;
  NpState := Z;
  TorchState := Z;
  get_trace_key := fun u s => (u, s);
  get_pair_name := fun p c s => (p, c, s);
  dumps := fun v => v;
  np_seeded := fun z => z;
  np_randint := fun st lo hi => (lo + st mod (hi - lo), st + 1);
  np_randint_range := fun st lo hi H =>
    ltac:(simpl; pose proof (Z.mod_pos_bound st (hi - lo)); lia);
  torch_seeded := fun z => z;
  pyro_sample := fun tr msg np t =>
    (tr ++ [(demo_site_of msg, PyInt (1000 * np + t))], np + 1, t + 1);
  batch_log_pdf := fun tr => PyInt (Z.of_nat (List.length tr))
|}.

Definition demo_msg : PyVal :=
  PyDict [("type", PyStr "sample"); ("name", PyStr "x")].

Definition demo_param_msg : PyVal :=
  PyDict [("type", PyStr "param"); ("name", PyStr "x")].

(** A world with an empty trace and an empty log; [ps] and [ws] are what
    [os.fork] and [add_lock_and_wait] will give. *)
Definition demo_world (ps : list Z) (ws : list Wake) : World :=
  MkWorld [] None 7 9 (fun _ => 11) 0%nat 0%nat 100 ps ws [].

(** A forked child that is woken with a [KillCommand]. *)
Definition demo_child_world : World :=
  demo_world [0] [Deliver (PyCmd KillCommand)].

(** A waiter that is handed the integer 3. *)
Definition demo_bad_wake_world : World :=
  demo_world [] [Deliver (PyInt 3)].

(** A process that is the parent of its one fork. *)
Definition demo_parent_world : World := demo_world [1] [].

(** The same with other generator states, another supply of trace-ids and
    another log. *)
Definition demo_other_world : World :=
  MkWorld [] (Some 40%nat) 123 456 (fun _ => 11) 77%nat 5%nat 100 [0] []
          [EvExit 1].

(** The first child of a clone loop: parent of the fork of
    [execute_control_site], child of the first fork of the loop, parent of
    the fork it makes itself. *)
Definition demo_clone_child_world : World := demo_world [1; 0; 1] [].



(** A waiter that is woken with a [LogPdfCommand]. *)
Definition demo_log_pdf_wake_world : World :=
  demo_world [] [Deliver (PyCmd LogPdfCommand)].

(** A message with no "type" entry. *)
Definition demo_untyped_msg : PyVal := PyDict [("name", PyStr "x")].

(** A process that stays the parent of three forks. *)
Definition demo_clone_parent_world : World := demo_world [1; 2; 3] [].

(** The child of the second iteration of a clone loop: parent of the fork
    of [execute_control_site] and of the first fork of the loop, child of
    the second. *)
Definition demo_loop_child_world : World := demo_world [1; 2; 0] [].

(** A child of the loop of a clone that has forks left to make: parent of
    the fork of [execute_control_site], child of the first fork of the
    loop, parent of the two forks it makes itself. *)
Definition demo_clone_loop_world : World := demo_world [1; 0; 1; 1] [].

(** The same process at the moment it calls [self.child_fct]: it has taken
    the trace-id 0 and recorded the pair (5, 0, "s"). *)
Definition demo_clone_started_world : World :=
  MkWorld [] (Some 0%nat) 7 9 (fun _ => 11) 1%nat 1%nat 100 [1; 1] []
          [EvPrint "Fork/Continue at site: {}, {}, {}"
             [ShUuid 5%nat; ShSite "s"; ShPoutine];
           EvFork 1; EvUuid 0%nat; EvFork 0; EvSetTraceUuid 0%nat;
           EvConnect RPairs 0%nat; EvAddPair 0%nat (5%nat, 0%nat, "s");
           EvKill 0%nat].

(** A seed numpy does not take. *)
Definition demo_bad_seed : option Z := Some (-1).

(** * Feature models of [pyro/contrib/treecat/features.py]

    The two concrete classes of the module, [Boolean] and [Real]; the
    abstract base [Feature] has no instances.  A method is a program whose
    nodes are its calls into [pyro] and [torch]: building a distribution
    object, [pyro.sample], and the tensor operations.  What these calls
    return, and whether they raise, is up to a handler the properties
    quantify over; what the module itself decides is the names of the
    sites, the order of the calls, where each value goes, and the
    unpacking of [shared] and [group]. *)

Inductive FeatureClass : Type := Boolean | Real.

(** [Feature.__init__] stores [name]. *)
Record Feature : Type := MkFeature {
  feature_class : FeatureClass;
  name : string
}.

(** [type(self).__name__] *)
Definition type_name (c : FeatureClass) : string :=
  match c with Boolean => "Boolean" | Real => "Real" end.

Definition double_quote : string :=
  String (Ascii.ascii_of_nat 34) EmptyString.

(** [Feature.__str__]: the class name, then the name between double
    quotes and parentheses. *)
Definition Feature_str (self : Feature) : string :=
  type_name (feature_class self) ++ "(" ++ double_quote
    ++ name self ++ double_quote ++ ")".

(** A float literal of the source, mantissa and power of ten as written:
    [0.5] is [Dec 5 (-1)], [10.] is [Dec 10 0]. *)
Record PyFloat : Type := Dec { mantissa : Z; exponent : Z }.

Inductive Family : Type := Gamma | Beta | Normal | LogNormal | Bernoulli.

Section FeatureModel.

(** What [pyro.sample] returns, what [dist.*] builds, and what the two
    libraries raise. *)
Variables (Val DistObj LibExn : Type).

(** The values [shared], [group] and [component] range over: a library
    value, or a tuple made by one of the methods. *)
Unset Elimination Schemes.
Inductive Obj : Type :=
| OVal (v : Val)
| OTuple (items : list Obj).
Set Elimination Schemes.

(** An argument of a distribution constructor. *)
Inductive Arg : Type :=
| AFloat (x : PyFloat)
| AObj (o : Obj).

(** The calls into the libraries, indexed by the type of what they
    return. *)
Inductive FEff : Type -> Type :=
| MakeDist (fam : Family) (args : list Arg) : FEff DistObj
| Sample (site : string) (d : DistObj) : FEff Val
| Pow (v : Val) (p : PyFloat) : FEff Val
| Mul (a b : Obj) : FEff Obj
| GetItem (o c : Obj) : FEff Obj
| Iter (v : Val) : FEff (list Val).

(** The module raises nothing itself except through unpacking, which gives
    a [ValueError] when the number of items is not the number of
    targets. *)
Inductive FExn : Type :=
| ValueError_unpack (expected got : nat)
| LibraryError (e : LibExn).

Inductive FProg (A : Type) : Type :=
| FRet (a : A)
| FRaise (e : FExn)
| FVis (X : Type) (e : FEff X) (k : X -> FProg A).

Arguments FRet {A} a.
Arguments FRaise {A} e.
Arguments FVis {A X} e k.

Fixpoint fbind {A C : Type} (m : FProg A) (f : A -> FProg C) : FProg C :=
  match m with
  | FRet a => f a
  | FRaise e => FRaise e
  | FVis e k => FVis e (fun x => fbind (k x) f)
  end.

Definition fcall {X : Type} (e : FEff X) : FProg X :=
  FVis e (fun x => FRet x).

(** [a, b, ... = o] with [n] targets. *)
Definition unpack (n : nat) (o : Obj) : FProg (list Obj) :=
  fbind (match o with
         | OTuple items => FRet items
         | OVal v => fbind (fcall (Iter v)) (fun vs => FRet (map OVal vs))
         end)
        (fun items =>
           if (List.length items =? n)%nat
           then FRet items
           else FRaise (ValueError_unpack n (List.length items))).

(** [pyro.sample("{}<suffix>".format(self.name), dist.<fam>(<args>))]: the
    name is formatted, the distribution is built, the site is sampled. *)
Definition sample_at (self : Feature) (suffix : string)
    (fam : Family) (args : list Arg) : FProg Val :=
  let site := (name self ++ suffix)%string in
  fbind (fcall (MakeDist fam args)) (fun d => fcall (Sample site d)).

Definition half : PyFloat := Dec 5 (-1).
Definition one : PyFloat := Dec 1 0.
Definition zero : PyFloat := Dec 0 0.
Definition ten : PyFloat := Dec 10 0.
Definition minus_half : PyFloat := Dec (-5) (-1).

(** [Boolean.sample_shared] *)
Definition Boolean_sample_shared (self : Feature) : FProg Obj :=
  fbind (sample_at self "_alpha" Gamma [AFloat half; AFloat one]) (fun alpha =>
  fbind (sample_at self "_beta" Gamma [AFloat half; AFloat one]) (fun beta =>
  FRet (OTuple [OVal alpha; OVal beta]))).

(** [Boolean.sample_group] *)
Definition Boolean_sample_group (self : Feature) (shared : Obj) : FProg Obj :=
  fbind (unpack 2 shared) (fun items =>
  match items with
  | [alpha; beta] =>
      fbind (sample_at self "_probs" Beta [AObj alpha; AObj beta])
            (fun probs => FRet (OVal probs))
  | _ => FRaise (ValueError_unpack 2 (List.length items))
  end).

(** [Boolean.value_dist] *)
Definition Boolean_value_dist (group component : Obj) : FProg DistObj :=
  let probs := group in
  fbind (fcall (GetItem probs component)) (fun p =>
  fcall (MakeDist Bernoulli [AObj p])).

(** [Real.sample_shared] *)
Definition Real_sample_shared (self : Feature) : FProg Obj :=
  fbind (sample_at self "_loc_loc" Normal [AFloat zero; AFloat one])
        (fun loc_loc =>
  fbind (sample_at self "_hyper_scale" LogNormal [AFloat zero; AFloat ten])
        (fun hyper_scale =>
  fbind (sample_at self "_scale_alpha" Gamma [AFloat half; AFloat one])
        (fun scale_alpha =>
  fbind (sample_at self "_scale_beta" Gamma [AFloat half; AFloat one])
        (fun scale_beta =>
  FRet (OTuple [OVal loc_loc; OVal hyper_scale;
                OVal scale_alpha; OVal scale_beta]))))).

(** [Real.sample_group]; [hyper_scale] is unpacked and not used. *)
Definition Real_sample_group (self : Feature) (shared : Obj) : FProg Obj :=
  fbind (unpack 4 shared) (fun items =>
  match items with
  | [loc_loc; hyper_scale; scale_alpha; scale_beta] =>
      fbind (sample_at self "_scale" Gamma [AObj scale_alpha; AObj scale_beta])
            (fun drawn =>
      fbind (fcall (Pow drawn minus_half)) (fun scale =>
      fbind (fcall (Mul loc_loc (OVal scale))) (fun mean =>
      fbind (sample_at self "_loc" Normal [AObj mean; AObj (OVal scale)])
            (fun loc =>
      FRet (OTuple [OVal loc; OVal scale])))))
  | _ => FRaise (ValueError_unpack 4 (List.length items))
  end).

(** [Real.value_dist] *)
Definition Real_value_dist (group component : Obj) : FProg DistObj :=
  fbind (unpack 2 group) (fun items =>
  match items with
  | [loc; scale] =>
      fbind (fcall (GetItem loc component)) (fun l =>
      fbind (fcall (GetItem scale component)) (fun s =>
      fcall (MakeDist Normal [AObj l; AObj s])))
  | _ => FRaise (ValueError_unpack 2 (List.length items))
  end).

(** The three methods, resolved along the class of [self]. *)
Definition sample_shared (self : Feature) : FProg Obj :=
  match feature_class self with
  | Boolean => Boolean_sample_shared self
  | Real => Real_sample_shared self
  end.

Definition sample_group (self : Feature) (shared : Obj) : FProg Obj :=
  match feature_class self with
  | Boolean => Boolean_sample_group self shared
  | Real => Real_sample_group self shared
  end.

Definition value_dist (self : Feature) (group component : Obj)
    : FProg DistObj :=
  match feature_class self with
  | Boolean => Boolean_value_dist group component
  | Real => Real_value_dist group component
  end.

(** The usage the class documents: the shared parameters, the parameters
    of the group, then the distribution of a value. *)
Definition feature_pipeline (self : Feature) (component : Obj)
    : FProg DistObj :=
  fbind (sample_shared self) (fun shared =>
  fbind (sample_group self shared) (fun group =>
  value_dist self group component)).

(** *** Running a method

    A handler answers every call from a state of its own, with a value or
    with an exception of the library.  [frun] threads the state and keeps
    the names of the sites [pyro.sample] was called at, in order. *)

Variable St : Type.

Definition Handler : Type :=
  forall X : Type, FEff X -> St -> (LibExn + X) * St.

Definition site_of {X : Type} (e : FEff X) : list string :=
  match e with
  | Sample site _ => [site]
  | _ => []
  end.

Record Outcome (A : Type) : Type := MkOutcome {
  result : FExn + A;
  final_state : St;
  sites : list string
}.

Fixpoint frun_from {A : Type} (h : Handler) (p : FProg A)
    (s : St) (seen : list string) : Outcome A :=
  match p with
  | FRet a => MkOutcome (inr a) s seen
  | FRaise e => MkOutcome (inl e) s seen
  | FVis e k =>
      let seen' := seen ++ site_of e in
      match h _ e s with
      | (inr x, s') => frun_from h (k x) s' seen'
      | (inl ex, s') => MkOutcome (inl (LibraryError ex)) s' seen'
      end
  end.

Definition frun {A : Type} (h : Handler) (p : FProg A) (s : St) : Outcome A :=
  frun_from h p s [].

(** A handler under which no call raises. *)
Definition never_raises (h : Handler) : Prop :=
  forall (X : Type) (e : FEff X) (s : St), exists x, fst (h X e s) = inr x.

End FeatureModel.

Arguments FRet {Val DistObj LibExn A} a.
Arguments FRaise {Val DistObj LibExn A} e.
Arguments FVis {Val DistObj LibExn A X} e k.
Arguments sample_shared {Val DistObj LibExn} self.
Arguments sample_group {Val DistObj LibExn} self shared.
Arguments value_dist {Val DistObj LibExn} self group component.
Arguments feature_pipeline {Val DistObj LibExn} self component.
Arguments OVal {Val} v.
Arguments OTuple {Val} items.
Arguments ValueError_unpack {LibExn} expected got.
Arguments LibraryError {LibExn} e.

(** A handler for concrete runs: values are numbers, every draw returns
    the count of the calls made so far, and nothing raises. *)
Definition demo_handler : Handler nat unit unit nat :=
  fun X e =>
    match e in FEff _ _ X return nat -> (unit + X) * nat with
    | @MakeDist _ _ _ _ => fun s => (inr tt, S s)
    | @Sample _ _ _ _ => fun s => (inr s, S s)
    | @Pow _ _ v _ => fun s => (inr v, S s)
    | @Mul _ _ a _ => fun s => (inr a, S s)
    | @GetItem _ _ o _ => fun s => (inr o, S s)
    | @Iter _ _ _ => fun s => (inr [], S s)
    end.

(** * Properties *)

Section Properties.

Context {B : Backend}.

(** ** How [run] goes through a program *)

Ltac norm_log := simpl; repeat rewrite <- app_assoc; simpl.

Lemma log_emit (ev : Event) (w : World) : log (emit ev w) = log w ++ [ev].
Proof. destruct w; reflexivity. Qed.

Lemma run_bind {A C : Type} (m : Prog A) (f : A -> Prog C) (w : World) :
  run (bind m f) w = and_then (run m w) f.
Proof.
  revert w.
  induction m as [a | e | c | | X e k IH | k IH]; intro w; simpl; try reflexivity.
  - destruct (handle e w) as [[x | ex |] w']; simpl; auto.
  - destruct (pids w) as [| pid ps]; simpl; auto.
Qed.

Lemma handle_log {X : Type} (e : Eff X) (w : World) :
  exists evs, log (snd (handle e w)) = log w ++ evs.
Proof.
  destruct w as [tr u np t ent nu nh npid ps ws l].
  destruct e; simpl;
    repeat match goal with
           | |- context [if ?b then _ else _] => destruct b
           | |- context [let '(_, _) := ?x in _] => destruct x
           end;
    simpl;
    try (eexists; reflexivity);
    try (exists []; rewrite app_nil_r; reflexivity).
  destruct ws as [| [v | ex |] ws]; simpl; eexists; reflexivity.
Qed.

(** The log only grows. *)
Lemma run_log {A : Type} (p : Prog A) (w : World) :
  exists evs, log (snd (run p w)) = log w ++ evs.
Proof.
  revert w.
  induction p as [a | e | c | | X e k IH | k IH]; intro w; simpl;
    try (exists []; rewrite app_nil_r; reflexivity).
  - destruct w; simpl. eexists; reflexivity.
  - destruct (handle_log e w) as [evs Hevs].
    destruct (handle e w) as [[x | ex |] w']; simpl in *.
    + destruct (IH x w') as [evs' Hevs']. rewrite Hevs', Hevs, <- app_assoc.
      eexists; reflexivity.
    + eexists; eassumption.
    + eexists; eassumption.
  - destruct w as [tr u np t ent nu nh npid ps ws l]. simpl.
    destruct ps as [| pid ps]; simpl.
    + eexists; reflexivity.
    + match goal with
      | |- context [run _ ?w1] => destruct (IH pid w1) as [evs Hevs]
      end.
      rewrite Hevs. simpl. rewrite <- app_assoc. eexists; reflexivity.
Qed.

(** ** Waiting on a lock *)

Lemma run_wait_on_lock_woken (w : World) (trace_uuid : Uuid)
    (site_name : Site) (v : PyVal) (ws : list Wake) :
  wakes w = Deliver v :: ws ->
  run (wait_on_lock trace_uuid site_name) w =
  (Returned v, woken (get_trace_key trace_uuid site_name) v ws w).
Proof.
  intro Hw. unfold wait_on_lock, woken, wait_events, release_events.
  destruct w; simpl in *. subst. norm_log. reflexivity.
Qed.

(** C2, as amended: [wait_on_lock] calls [kill_connection] on the
    connection it opened when [add_lock_and_wait] returns a payload, and
    returns that payload.  When [add_lock_and_wait] fails, the exception
    leaves [wait_on_lock] and the connection stays open; when no waker
    comes, the call never returns. *)
Theorem wait_on_lock_releases_when_woken :
  forall (w : World) (trace_uuid : Uuid) (site_name : Site),
    let h := next_handle w in
    let k := get_trace_key trace_uuid site_name in
    let r := run (wait_on_lock trace_uuid site_name) w in
    match wakes w with
    | Deliver v :: _ =>
        fst r = Returned v /\
        log (snd r) = log w ++ wait_events h k (Deliver v) ++ release_events h k /\
        open_handles (wait_events h k (Deliver v) ++ release_events h k) = []
    | WaitFails e :: _ =>
        fst r = Raised e /\
        log (snd r) = log w ++ wait_events h k (WaitFails e) /\
        open_handles (wait_events h k (WaitFails e)) = [h]
    | _ =>
        fst r = Parked /\
        log (snd r) = log w ++ wait_events h k Never
    end.
Proof.
  intros w trace_uuid site_name h k r. subst h k r.
  unfold wait_on_lock, wait_events, release_events.
  destruct w as [tr u np t ent nu nh np' ps ws l].
  destruct ws as [| [v | e |] ws]; norm_log;
    try rewrite Nat.eqb_refl; auto.
Qed.

(** ** Continue: persist, fork, and the parked child *)

(** C4: in the child of the fork of [ForkContinueCommand], the first thing
    that happens is one [wait_on_lock] on the key of the trace-id and site
    the command was executed with; nothing else comes between the fork and
    the wake-up.  Woken with a command [c], the child goes on as
    [c.execute_control_site] with that same trace-id, site and extra
    arguments, on the trace it had at the fork. *)
Theorem fork_continue_child_waits_once_then_dispatches :
  forall (w : World) (fuel : nat) (trace_uuid : Uuid) (site_name : Site)
         (extra : Extra) (ps : list Z),
    pids w = 0 :: ps ->
    let h := next_handle w in
    let k := get_trace_key trace_uuid site_name in
    let before_fork :=
      persist_events h trace_uuid site_name (poutine_trace w) in
    let r := run (execute_control_site (S fuel) ForkContinueCommand
                    trace_uuid site_name extra) w in
    (exists rest : list Event,
        log (snd r) = log w ++ before_fork ++ [EvFork 0]
                            ++ wait_events (S h) k (next_wake w) ++ rest) /\
    (forall (c : Cmd) (ws : list Wake),
        wakes w = Deliver (PyCmd c) :: ws ->
        let after_fork :=
          wait_events (S h) k (Deliver (PyCmd c)) ++ release_events (S h) k in
        exists w' : World,
          r = run (execute_control_site fuel c trace_uuid site_name extra) w' /\
          log w' = log w ++ before_fork ++ [EvFork 0] ++ after_fork /\
          waits_of after_fork = [k] /\
          poutine_trace w' = poutine_trace w /\
          pids w' = ps /\ wakes w' = ws).
Proof.
  intros w fuel trace_uuid site_name extra ps Hp h k before_fork r.
  subst h k before_fork r.
  unfold persist_events, wait_events, release_events, next_wake.
  destruct w as [tr u np t ent nu nh npid ps0 ws0 l]; simpl in Hp; subst.
  split.
  - destruct ws0 as [| [pv | e |] ws0].
    + exists []. norm_log. reflexivity.
    + destruct pv as [| b | z | s | items | c];
        try (eexists; norm_log; reflexivity).
      simpl.
      match goal with
      | |- context [run ?p ?w0] => destruct (run_log p w0) as [evs Hevs]
      end.
      rewrite Hevs. eexists. norm_log. reflexivity.
    + exists []. norm_log. reflexivity.
    + exists []. norm_log. reflexivity.
  - intros c ws Hw. simpl in Hw. subst.
    eexists; split; [norm_log; reflexivity |].
    norm_log. repeat split.
Qed.

(** ** LogPdf *)

(** C5: [LogPdfCommand.execute_control_site] asks the trace for its batch
    log-density [v] and publishes it, as the trace returned it, into the
    message slot of the key of (trace-id, site): the payload is the pickle
    of [{'log_pdf': v}], from which unpickling reads [v] back.  It then
    waits on the lock of that same key.  Woken with a command [c], it goes
    on as [c.execute_control_site] with the same trace-id, site and extra
    arguments. *)
Theorem log_pdf_publishes_then_parks :
  forall (w : World) (fuel : nat) (trace_uuid : Uuid) (site_name : Site)
         (extra : Extra),
    let h := next_handle w in
    let k := get_trace_key trace_uuid site_name in
    let v := batch_log_pdf (poutine_trace w) in
    let r := run (execute_control_site (S fuel) LogPdfCommand
                    trace_uuid site_name extra) w in
    (exists rest : list Event,
        log (snd r) = log w ++ publish_events h k v
                            ++ wait_events (S h) k (next_wake w)
                            ++ rest) /\
    (forall loads : Blob -> PyVal,
        (forall x, loads (dumps x) = x) ->
        py_getitem (loads (dumps (PyDict [("log_pdf", v)]))) "log_pdf"
        = inr v) /\
    (forall (c : Cmd) (ws : list Wake),
        wakes w = Deliver (PyCmd c) :: ws ->
        exists w' : World,
          r = run (execute_control_site fuel c trace_uuid site_name extra) w' /\
          log w' = log w ++ publish_events h k v
                         ++ wait_events (S h) k (Deliver (PyCmd c))
                         ++ release_events (S h) k /\
          poutine_trace w' = poutine_trace w /\
          wakes w' = ws).
Proof.
  intros w fuel trace_uuid site_name extra h k v r. subst h k v r.
  unfold publish_events, wait_events, release_events, next_wake.
  destruct w as [tr u np t ent nu nh npid ps0 ws0 l].
  split; [| split].
  - destruct ws0 as [| [pv | e |] ws0].
    + exists []. norm_log. reflexivity.
    + destruct pv as [| b | z | s | items | c];
        try (eexists; norm_log; reflexivity).
      simpl.
      match goal with
      | |- context [run ?p ?w0] => destruct (run_log p w0) as [evs Hevs]
      end.
      rewrite Hevs. eexists. norm_log. reflexivity.
    + exists []. norm_log. reflexivity.
    + exists []. norm_log. reflexivity.
  - intros loads Hloads. rewrite Hloads. reflexivity.
  - intros c ws Hw. simpl in Hw. subst.
    eexists; split; [norm_log; reflexivity |].
    norm_log. repeat split.
Qed.

(** ** A payload that is not a command *)

(** C6: when the value delivered to a waiter is not a Control Command, both
    [ForkContinueCommand.child_fct] and
    [LogPdfCommand.execute_control_site] raise [AssertionError] right after
    [wait_on_lock] has returned: the last thing either did is the
    [kill_connection] of the wait. *)
Theorem non_command_payload_is_fatal :
  forall (w : World) (dispatch : Dispatch) (trace_uuid : Uuid)
         (site_name : Site) (extra : Extra) (v : PyVal) (ws : list Wake),
    is_control_command v = false ->
    wakes w = Deliver v :: ws ->
    let k := get_trace_key trace_uuid site_name in
    let failure :=
      Raised (AssertionError "Lock must be behavior for lock release") in
    let r1 := run (ForkContinue_child_fct dispatch trace_uuid site_name extra) w in
    let r2 := run (LogPdf_execute dispatch trace_uuid site_name extra) w in
    (fst r1 = failure /\
     log (snd r1) = log w ++ wait_events (next_handle w) k (Deliver v)
                          ++ release_events (next_handle w) k) /\
    (fst r2 = failure /\
     log (snd r2) = log w
        ++ publish_events (next_handle w) k (batch_log_pdf (poutine_trace w))
        ++ wait_events (S (next_handle w)) k (Deliver v)
        ++ release_events (S (next_handle w)) k).
Proof.
  intros w dispatch trace_uuid site_name extra v ws Hv Hw k failure r1 r2.
  subst k failure r1 r2.
  unfold publish_events, wait_events, release_events.
  destruct w as [tr u np t ent nu nh npid ps0 ws0 l]; simpl in Hw; subst.
  destruct v; try discriminate Hv; norm_log; repeat split.
Qed.

(** ** ResampleForkContinue *)

Lemma execute_resample_fork_continue (fuel : nat) (seed : option Z)
    (uuid_on_sample : bool) (trace_uuid : Uuid) (site_name : Site)
    (extra : Extra) :
  execute_control_site fuel (ResampleForkContinueCommand seed uuid_on_sample)
    trace_uuid site_name extra
  = ResampleForkContinue_execute (dispatch_at fuel) seed uuid_on_sample
      trace_uuid site_name extra.
Proof. destruct fuel; reflexivity. Qed.

(** A seed numpy takes is one torch takes, and so is a draw of
    [randint(0, 10000000)]. *)
Lemma torch_takes_numpy_seed (s : Z) :
  np_seed_ok (Some s) = true -> torch_seed_ok s = true.
Proof.
  unfold np_seed_ok, torch_seed_ok.
  rewrite !andb_true_iff, !Z.leb_le. lia.
Qed.

Lemma torch_takes_reseed (seed : option Z) (w : World) :
  np_seed_ok seed = true -> torch_seed_ok (fst (reseed seed w)) = true.
Proof.
  destruct seed as [s |]; simpl; [apply torch_takes_numpy_seed |].
  intros _.
  pose proof (np_randint_range (lo := 0) (hi := 10000000)
                (os_entropy w (List.length (log w))) eq_refl) as Hr.
  unfold torch_seed_ok. rewrite andb_true_iff, !Z.leb_le. lia.
Qed.

(** The first two statements of the method, for a seed numpy takes. *)
Lemma run_seeding {A : Type} (seed : option Z) (rest : Prog A) (w : World) :
  np_seed_ok seed = true ->
  run (call (NpSeed seed) ;;
       torch_seed <- match seed with
                     | Some s => Ret s
                     | None => call (NpRandint 0 10000000)
                     end ;;
       call (TorchManualSeed torch_seed) ;;
       rest) w
  = run rest (seeded seed w).
Proof.
  intro Hs. pose proof (torch_takes_reseed seed w Hs) as Ht.
  destruct w as [tr u np t ent nu nh npid ps0 ws0 l]. unfold seeded.
  destruct seed as [s |]; simpl in *.
  - rewrite Hs. simpl. rewrite Ht. norm_log. reflexivity.
  - destruct (np_randint (ent (List.length l)) 0 10000000) as [z np'] eqn:Hr.
    simpl in *. rewrite Ht. norm_log. reflexivity.
Qed.

(** With a seed numpy does not take, the method raises in its first
    statement: nothing has been done. *)
Lemma run_seeding_refused {A : Type} (seed : option Z) (rest : Prog A)
    (w : World) :
  np_seed_ok seed = false ->
  run (call (NpSeed seed) ;; rest) w = (Raised np_seed_failure, w).
Proof. intro Hs. simpl. rewrite Hs. reflexivity. Qed.

(** The run of the method on a message whose type is not "sample". *)
Lemma run_resample_rejected (w : World) (fuel : nat) (seed : option Z)
    (uuid_on_sample : bool) (trace_uuid : Uuid) (site_name : Site)
    (extra : Extra) (msg msg_type : PyVal) :
  np_seed_ok seed = true ->
  bind_msg extra = inr msg ->
  py_getitem msg "type" = inr msg_type ->
  py_eq_str msg_type "sample" = false ->
  let r := run (execute_control_site fuel
                  (ResampleForkContinueCommand seed uuid_on_sample)
                  trace_uuid site_name extra) w in
  fst r = Raised resample_failure /\
  log (snd r) = log w ++ seed_events seed w
                      ++ [EvPrint "Conducting: {}" [ShVal msg]] /\
  poutine_trace (snd r) = poutine_trace w /\
  poutine_uuid (snd r) = poutine_uuid w /\
  np_rng (snd r) = snd (reseed seed w) /\
  torch_rng (snd r) = torch_seeded (fst (reseed seed w)).
Proof.
  intros Hseed Hb Ht Hs r.
  subst r. rewrite execute_resample_fork_continue.
  unfold ResampleForkContinue_execute, resample_failure.
  rewrite Hb. cbn [lift bind]. rewrite (run_seeding _ _ _ Hseed).
  destruct w as [tr u np t ent nu nh npid ps0 ws0 l]. unfold seeded.
  simpl. rewrite Ht. simpl. rewrite Hs. norm_log. repeat split.
Qed.

(** C10: for a seed numpy takes ([None], or from 0 to 2**32 - 1): when the
    type of the message is not "sample", the method raises with the trace
    object as it was and with nothing written to the coordination store,
    yet after both generators have been reseeded: what left the process is
    the seeding and one [print]. *)
Theorem resample_abort_after_reseed_before_effects :
  forall (w : World) (fuel : nat) (seed : option Z) (uuid_on_sample : bool)
         (trace_uuid : Uuid) (site_name : Site) (extra : Extra)
         (msg msg_type : PyVal),
    np_seed_ok seed = true ->
    bind_msg extra = inr msg ->
    py_getitem msg "type" = inr msg_type ->
    py_eq_str msg_type "sample" = false ->
    let r := run (execute_control_site fuel
                    (ResampleForkContinueCommand seed uuid_on_sample)
                    trace_uuid site_name extra) w in
    let done := seed_events seed w ++ [EvPrint "Conducting: {}" [ShVal msg]] in
    fst r = Raised resample_failure /\
    log (snd r) = log w ++ done /\
    filter is_store_write done = [] /\
    filter is_trace_mutation done = [] /\
    poutine_trace (snd r) = poutine_trace w /\
    poutine_uuid (snd r) = poutine_uuid w /\
    np_rng (snd r) = snd (reseed seed w) /\
    torch_rng (snd r) = torch_seeded (fst (reseed seed w)).
Proof.
  intros w fuel seed uuid_on_sample trace_uuid site_name extra msg msg_type
         Hseed Hb Ht Hs r done.
  destruct (run_resample_rejected w fuel seed uuid_on_sample trace_uuid
              site_name extra Hseed Hb Ht Hs) as [Hf [Hl [Htr [Hu [Hnp Hto]]]]].
  repeat split; try assumption.
  - subst done. destruct seed; reflexivity.
  - subst done. destruct seed; reflexivity.
Qed.

(** Whatever the two branches of the fork do, a command that inherits
    [ForkContinueCommand.serialize_trace] first persists the trace under the
    trace-id and site it is given. *)
Lemma fork_continue_persists_first (self : Cmd)
    (pf cf : Uuid -> Site -> Extra -> Prog PyVal)
    (trace_uuid : Uuid) (site_name : Site) (extra : Extra) (w : World) :
  serialize_trace self = ForkContinue_serialize_trace ->
  exists rest : list Event,
    log (snd (run (ForkContinue_execute self pf cf trace_uuid site_name extra) w))
    = log w ++ persist_events (next_handle w) trace_uuid site_name
                 (poutine_trace w) ++ rest.
Proof.
  intro Hs. unfold ForkContinue_execute. rewrite Hs.
  unfold ForkContinue_serialize_trace, persist_events.
  destruct w as [tr u np t ent nu nh npid ps0 ws0 l].
  destruct ps0 as [| pid ps0].
  - eexists. norm_log. reflexivity.
  - simpl.
    match goal with
    | |- context [run ?p ?w0] => destruct (run_log p w0) as [evs Hevs]
    end.
    rewrite Hevs. eexists. norm_log. reflexivity.
Qed.

(** The run of the method on a message of type "sample", up to the point
    where it hands over to [ForkContinueCommand.execute_control_site]. *)
Lemma run_resample_accepted (w : World) (fuel : nat) (seed : option Z)
    (uuid_on_sample : bool) (trace_uuid : Uuid) (site_name : Site)
    (extra : Extra) (msg msg_type : PyVal) :
  np_seed_ok seed = true ->
  bind_msg extra = inr msg ->
  py_getitem msg "type" = inr msg_type ->
  py_eq_str msg_type "sample" = true ->
  let new := next_uuid w in
  let effective := if uuid_on_sample then new else trace_uuid in
  let added := if uuid_on_sample
               then pairing_events (next_handle w) trace_uuid new site_name
               else [] in
  exists w' : World,
    run (execute_control_site fuel
           (ResampleForkContinueCommand seed uuid_on_sample)
           trace_uuid site_name extra) w
    = run (ForkContinue_execute
             (ResampleForkContinueCommand seed uuid_on_sample)
             (fun _ _ _ => ForkContinue_parent_fct)
             (ForkContinue_child_fct (dispatch_at fuel))
             effective site_name (one_arg msg)) w' /\
    log w' = log w ++ resample_events seed site_name msg w ++ added /\
    poutine_uuid w' = (if uuid_on_sample then Some new else poutine_uuid w) /\
    poutine_trace w' = fst (fst (resampled seed msg w)) /\
    pids w' = pids w /\
    wakes w' = wakes w.
Proof.
  intros Hseed Hb Ht Hs new effective added.
  subst new effective added. rewrite execute_resample_fork_continue.
  unfold ResampleForkContinue_execute, resample_events, pairing_events,
         resampled, fresh_trace_uuid.
  remember (ForkContinue_execute
              (ResampleForkContinueCommand seed uuid_on_sample)
              (fun _ _ _ => ForkContinue_parent_fct)
              (ForkContinue_child_fct (dispatch_at fuel))) as K eqn:HK.
  clear HK.
  rewrite Hb. cbn [lift bind]. rewrite (run_seeding _ _ _ Hseed).
  destruct w as [tr u np t ent nu nh npid ps0 ws0 l]. unfold seeded.
  simpl. rewrite Ht. simpl. rewrite Hs. simpl.
  match goal with
  | |- context [pyro_sample ?a ?b ?c ?d] =>
      destruct (pyro_sample a b c d) as [[tr' np'] t'] eqn:Hp
  end.
  destruct uuid_on_sample; simpl;
    (eexists; split; [reflexivity |]);
    norm_log; repeat split.
Qed.

(** [ForkContinueCommand.execute_control_site] with the two branches of
    the class itself: the parent of the fork returns [None]; when no
    wake-up is pending, the call ends by returning, by the [OSError] of a
    failed fork, or parked on the lock. *)
Lemma run_fork_continue_ends (self : Cmd) (dispatch : Dispatch)
    (trace_uuid : Uuid) (site_name : Site) (extra : Extra) (w : World) :
  serialize_trace self = ForkContinue_serialize_trace ->
  let r := run (ForkContinue_execute self
                  (fun _ _ _ => ForkContinue_parent_fct)
                  (ForkContinue_child_fct dispatch)
                  trace_uuid site_name extra) w in
  (forall (pid : Z) (ps : list Z),
      pids w = pid :: ps -> pid <> 0 -> fst r = Returned PyNone) /\
  (wakes w = [] ->
   fst r = Returned PyNone \/ fst r = Raised (OSError "fork") \/ fst r = Parked).
Proof.
  intros Hser r. subst r. unfold ForkContinue_execute. rewrite Hser.
  unfold ForkContinue_serialize_trace.
  destruct w as [tr u np t ent nu nh npid ps0 ws0 l]. split.
  - intros pid ps Hp Hpid. simpl in Hp. subst ps0.
    apply Z.eqb_neq in Hpid. simpl. rewrite Hpid. reflexivity.
  - intro Hw. simpl in Hw. subst ws0.
    destruct ps0 as [| pid ps0]; simpl; [right; left; reflexivity |].
    destruct (pid =? 0); simpl; [right; right | left]; reflexivity.
Qed.

(** C8: for a seed numpy takes ([None], or from 0 to 2**32 - 1), after
    resampling, [uuid_on_sample] decides.  When it holds, one new
    trace-id [new] is generated, one pair record (old, new, site) is added,
    and the rest of the method is the persist-and-fork of
    [ForkContinueCommand] run with [new]: the trace is stored under [new]
    and the child waits on the key of [new].  When it does not hold, no
    trace-id is generated, no pair record is added, and the same step runs
    with the trace-id the method was given. *)
Theorem resample_uuid_on_sample_substitutes_trace_id :
  forall (w : World) (fuel : nat) (seed : option Z) (uuid_on_sample : bool)
         (trace_uuid : Uuid) (site_name : Site) (extra : Extra)
         (msg msg_type : PyVal),
    np_seed_ok seed = true ->
    bind_msg extra = inr msg ->
    py_getitem msg "type" = inr msg_type ->
    py_eq_str msg_type "sample" = true ->
    let new := next_uuid w in
    let effective := if uuid_on_sample then new else trace_uuid in
    let added := if uuid_on_sample
                 then pairing_events (next_handle w) trace_uuid new site_name
                 else [] in
    let r := run (execute_control_site fuel
                    (ResampleForkContinueCommand seed uuid_on_sample)
                    trace_uuid site_name extra) w in
    exists w' : World,
      r = run (ForkContinue_execute
                 (ResampleForkContinueCommand seed uuid_on_sample)
                 (fun _ _ _ => ForkContinue_parent_fct)
                 (ForkContinue_child_fct (dispatch_at fuel))
                 effective site_name (one_arg msg)) w' /\
      log w' = log w ++ resample_events seed site_name msg w ++ added /\
      uuids_of added = (if uuid_on_sample then [new] else []) /\
      pairs_of added = (if uuid_on_sample
                        then [get_pair_name trace_uuid new site_name]
                        else []) /\
      poutine_uuid w' = (if uuid_on_sample then Some new else poutine_uuid w) /\
      poutine_trace w' = fst (fst (resampled seed msg w)) /\
      (exists rest : list Event,
          log (snd r) = log w' ++ persist_events (next_handle w') effective
                                    site_name (poutine_trace w') ++ rest).
Proof.
  intros w fuel seed uuid_on_sample trace_uuid site_name extra msg msg_type
         Hseed Hb Ht Hs new effective added r.
  destruct (run_resample_accepted w fuel seed uuid_on_sample trace_uuid
              site_name extra Hseed Hb Ht Hs) as [w' [Hr [Hl [Hu [Htr _]]]]].
  exists w'. repeat split; auto.
  - subst added. destruct uuid_on_sample; reflexivity.
  - subst added. destruct uuid_on_sample; reflexivity.
  - subst r. rewrite Hr. apply fork_continue_persists_first. reflexivity.
Qed.

(** C7: for a seed numpy takes ([None], or from 0 to 2**32 - 1): when the
    type of the message is not "sample", the method raises [AssertionError]
    and the trace is not resampled; when it is "sample", the assertion
    passes and the method goes on to resample and to its last statement,
    the persist-and-fork of [ForkContinueCommand]: the parent of that fork
    returns [None], and as long as no command is woken the result is not
    that [AssertionError]. *)
Theorem resample_requires_sample_message :
  forall (w : World) (fuel : nat) (seed : option Z) (uuid_on_sample : bool)
         (trace_uuid : Uuid) (site_name : Site) (extra : Extra)
         (msg msg_type : PyVal),
    np_seed_ok seed = true ->
    bind_msg extra = inr msg ->
    py_getitem msg "type" = inr msg_type ->
    let r := run (execute_control_site fuel
                    (ResampleForkContinueCommand seed uuid_on_sample)
                    trace_uuid site_name extra) w in
    if py_eq_str msg_type "sample"
    then (exists rest : list Event,
             log (snd r) = log w ++ resample_events seed site_name msg w
                                 ++ rest) /\
         (forall (pid : Z) (ps : list Z),
             pids w = pid :: ps -> pid <> 0 -> fst r = Returned PyNone) /\
         (wakes w = [] -> fst r <> Raised resample_failure)
    else fst r = Raised resample_failure /\
         log (snd r) = log w ++ seed_events seed w
                             ++ [EvPrint "Conducting: {}" [ShVal msg]] /\
         poutine_trace (snd r) = poutine_trace w.
Proof.
  intros w fuel seed uuid_on_sample trace_uuid site_name extra msg msg_type
         Hseed Hb Ht r.
  destruct (py_eq_str msg_type "sample") eqn:Hs.
  - destruct (run_resample_accepted w fuel seed uuid_on_sample trace_uuid
                site_name extra Hseed Hb Ht Hs)
      as [w' [Hr [Hl [_ [_ [Hp Hw]]]]]].
    destruct (@fork_continue_persists_first
                (ResampleForkContinueCommand seed uuid_on_sample)
                (fun _ _ _ => ForkContinue_parent_fct)
                (ForkContinue_child_fct (dispatch_at fuel))
                (if uuid_on_sample then next_uuid w else trace_uuid)
                site_name (one_arg msg) w' eq_refl) as [rest Hrest].
    destruct (@run_fork_continue_ends
                (ResampleForkContinueCommand seed uuid_on_sample)
                (dispatch_at fuel)
                (if uuid_on_sample then next_uuid w else trace_uuid)
                site_name (one_arg msg) w' eq_refl) as [Hparent Hquiet].
    subst r. rewrite Hr. split; [| split].
    + eexists. etransitivity; [exact Hrest |].
      rewrite Hl. repeat rewrite <- app_assoc. reflexivity.
    + intros pid ps Hpw Hpid. apply (Hparent pid ps); [congruence | exact Hpid].
    + intros Hws Hf. rewrite <- Hw in Hws.
      destruct (Hquiet Hws) as [H | [H | H]];
        pose proof (eq_trans (eq_sym H) Hf) as Hx; discriminate Hx.
  - destruct (run_resample_rejected w fuel seed uuid_on_sample trace_uuid
                site_name extra Hseed Hb Ht Hs) as [Hf [Hl [Htr _]]].
    repeat split; assumption.
Qed.

(** The method overwrites both generators before it reads either: the run
    does not depend on the states they were in. *)
Lemma run_resample_forgets_generators (w : World) (np1 np2 : NpState)
    (t1 t2 : TorchState) (fuel : nat) (seed : option Z)
    (uuid_on_sample : bool)
    (trace_uuid : Uuid) (site_name : Site) (msg : PyVal) :
  np_seed_ok seed = true ->
  run (ResampleForkContinue_execute (dispatch_at fuel) seed uuid_on_sample
         trace_uuid site_name (one_arg msg)) (set_rng np1 t1 w)
  = run (ResampleForkContinue_execute (dispatch_at fuel) seed uuid_on_sample
           trace_uuid site_name (one_arg msg)) (set_rng np2 t2 w).
Proof.
  intro Hseed. unfold ResampleForkContinue_execute.
  cbn [lift bind one_arg bind_msg ex_args ex_kwargs].
  rewrite !(run_seeding _ _ _ Hseed).
  destruct w as [tr u np t ent nu nh npid ps0 ws0 l].
  reflexivity.
Qed.

(** C3: with a seed that is not [None] and that numpy takes (from 0 to
    2**32 - 1), the run of
    [ResampleForkContinueCommand(seed).execute_control_site] is the same
    from any two states of the numpy and torch generators: the same result,
    the same calls with the same arguments (so the same persisted trace and
    the same published log-density when a [LogPdfCommand] follows), the same
    trace object.  And from any two worlds that agree on the trace, the
    trace after resampling is the same, and so is its batch log-density. *)
Theorem resample_fixed_seed_is_reproducible :
  forall (fuel : nat) (s : Z) (uuid_on_sample : bool)
         (trace_uuid : Uuid) (site_name : Site) (extra : Extra),
    np_seed_ok (Some s) = true ->
    let c := ResampleForkContinueCommand (Some s) uuid_on_sample in
    (forall (w : World) (np1 np2 : NpState) (t1 t2 : TorchState),
        let r1 := run (execute_control_site fuel c trace_uuid site_name extra)
                      (set_rng np1 t1 w) in
        let r2 := run (execute_control_site fuel c trace_uuid site_name extra)
                      (set_rng np2 t2 w) in
        fst r1 = fst r2 /\
        log (snd r1) = log (snd r2) /\
        poutine_trace (snd r1) = poutine_trace (snd r2) /\
        batch_log_pdf (poutine_trace (snd r1))
        = batch_log_pdf (poutine_trace (snd r2))) /\
    (forall (w1 w2 : World) (msg msg_type : PyVal),
        poutine_trace w1 = poutine_trace w2 ->
        bind_msg extra = inr msg ->
        py_getitem msg "type" = inr msg_type ->
        py_eq_str msg_type "sample" = true ->
        exists w1' w2' : World,
          run (execute_control_site fuel c trace_uuid site_name extra) w1
          = run (ForkContinue_execute c
                   (fun _ _ _ => ForkContinue_parent_fct)
                   (ForkContinue_child_fct (dispatch_at fuel))
                   (if uuid_on_sample then next_uuid w1 else trace_uuid)
                   site_name (one_arg msg)) w1' /\
          run (execute_control_site fuel c trace_uuid site_name extra) w2
          = run (ForkContinue_execute c
                   (fun _ _ _ => ForkContinue_parent_fct)
                   (ForkContinue_child_fct (dispatch_at fuel))
                   (if uuid_on_sample then next_uuid w2 else trace_uuid)
                   site_name (one_arg msg)) w2' /\
          log w1' = log w1 ++ resample_events (Some s) site_name msg w1
                          ++ (if uuid_on_sample
                              then pairing_events (next_handle w1) trace_uuid
                                     (next_uuid w1) site_name
                              else []) /\
          log w2' = log w2 ++ resample_events (Some s) site_name msg w2
                          ++ (if uuid_on_sample
                              then pairing_events (next_handle w2) trace_uuid
                                     (next_uuid w2) site_name
                              else []) /\
          poutine_trace w1' = poutine_trace w2' /\
          batch_log_pdf (poutine_trace w1') = batch_log_pdf (poutine_trace w2') /\
          poutine_trace w1'
          = fst (fst (pyro_sample (poutine_trace w1) msg
                        (np_seeded s) (torch_seeded s)))).
Proof.
  intros fuel s uuid_on_sample trace_uuid site_name extra Hseed c.
  subst c. split.
  - intros w np1 np2 t1 t2 r1 r2. subst r1 r2.
    rewrite !execute_resample_fork_continue.
    destruct (bind_msg extra) as [e | msg] eqn:Hb.
    + unfold ResampleForkContinue_execute. rewrite Hb.
      destruct w; simpl. repeat split.
    + assert (Hrun : forall w0 : World,
                 run (ResampleForkContinue_execute (dispatch_at fuel) (Some s)
                        uuid_on_sample trace_uuid site_name extra) w0
                 = run (ResampleForkContinue_execute (dispatch_at fuel) (Some s)
                          uuid_on_sample trace_uuid site_name (one_arg msg)) w0).
      { intro w0. unfold ResampleForkContinue_execute. rewrite Hb.
        reflexivity. }
      rewrite !Hrun.
      rewrite (run_resample_forgets_generators w np1 np2 t1 t2 fuel
                 (Some s) uuid_on_sample trace_uuid site_name msg Hseed).
      repeat split.
  - intros w1 w2 msg msg_type Htr Hb Ht Hs.
    destruct (run_resample_accepted w1 fuel (Some s) uuid_on_sample trace_uuid
                site_name extra Hseed Hb Ht Hs)
      as [w1' [Hr1 [Hl1 [_ [Htr1 _]]]]].
    destruct (run_resample_accepted w2 fuel (Some s) uuid_on_sample trace_uuid
                site_name extra Hseed Hb Ht Hs)
      as [w2' [Hr2 [Hl2 [_ [Htr2 _]]]]].
    unfold resampled, reseed in Htr1, Htr2. simpl in Htr1, Htr2.
    exists w1', w2'. rewrite Htr1, Htr2, Htr. repeat split; assumption.
Qed.

(** ** Staying the same process *)

Lemma and_then_assoc {A C D : Type} (r : Final A * World)
    (f : A -> Prog C) (g : C -> Prog D) :
  and_then (and_then r f) g = and_then r (fun a => bind (f a) g).
Proof.
  destruct r as [[a | e | c | |] w]; simpl; try reflexivity.
  symmetry. apply run_bind.
Qed.

Lemma uuids_of_app (l1 l2 : list Event) :
  uuids_of (l1 ++ l2) = uuids_of l1 ++ uuids_of l2.
Proof. apply flat_map_app. Qed.

Lemma pairs_of_app (l1 l2 : list Event) :
  pairs_of (l1 ++ l2) = pairs_of l1 ++ pairs_of l2.
Proof. apply flat_map_app. Qed.

Lemma waits_of_app (l1 l2 : list Event) :
  waits_of (l1 ++ l2) = waits_of l1 ++ waits_of l2.
Proof. apply flat_map_app. Qed.

Lemma waitless_bind {A C : Type} (m : Prog A) (f : A -> Prog C) :
  waitless m -> (forall a, waitless (f a)) -> waitless (bind m f).
Proof.
  intros Hm Hf. induction Hm; simpl; auto; constructor; auto.
Qed.

Lemma waitless_call {X : Type} (e : Eff X) :
  is_wait e = false -> waitless (call e).
Proof. intro He. apply waitless_vis; [assumption | constructor]. Qed.

Lemma waitless_lift {A : Type} (r : Exn + A) : waitless (lift r).
Proof. destruct r; constructor. Qed.

Lemma waitless_assert (b : bool) (msg : string) : waitless (py_assert b msg).
Proof. destruct b; constructor. Qed.

Lemma handle_waitless {X : Type} (e : Eff X) (w : World) :
  is_wait e = false ->
  fst (handle e w) <> Blocks /\
  waits_of (log (snd (handle e w))) = waits_of (log w) /\
  pids (snd (handle e w)) = pids w.
Proof.
  intro He. destruct w as [tr u np t ent nu nh npid ps ws l].
  destruct e; try discriminate He; simpl;
    repeat match goal with
           | |- context [if ?b then _ else _] => destruct b
           | |- context [let '(_, _) := ?x in _] => destruct x
           end;
    simpl; try (rewrite waits_of_app; simpl; rewrite app_nil_r);
    repeat split; discriminate.
Qed.

(** A waitless program, run as its own process, neither parks nor calls
    [add_lock_and_wait]. *)
Lemma waitless_run {A : Type} (p : Prog A) :
  waitless p ->
  forall w : World,
    own_process w ->
    fst (run p w) <> Parked /\
    waits_of (log (snd (run p w))) = waits_of (log w) /\
    own_process (snd (run p w)).
Proof.
  induction 1 as [a | e | c | | X e k He Hk IH | k Hk IH]; intros w Hw.
  - simpl. repeat split; [discriminate | assumption].
  - simpl. repeat split; [discriminate | assumption].
  - destruct w as [tr u np t ent nu nh npid ps ws l]. simpl.
    rewrite waits_of_app, app_nil_r. repeat split; [discriminate | assumption].
  - simpl. repeat split; [discriminate | assumption].
  - simpl. destruct (handle_waitless e w He) as [Hx [Hwt Hp]].
    destruct (handle e w) as [rep w1]. simpl in Hx, Hwt, Hp.
    assert (Hw1 : own_process w1) by (unfold own_process; rewrite Hp; exact Hw).
    destruct rep as [x | ex |]; [| | contradiction].
    + destruct (IH x w1 Hw1) as [Hn [Hws Ho]].
      rewrite Hws, Hwt. repeat split; assumption.
    + simpl. repeat split; [discriminate | assumption | assumption].
  - destruct w as [tr u np t ent nu nh npid ps ws l].
    unfold own_process in Hw. simpl in Hw. simpl.
    destruct ps as [| pid ps]; simpl.
    + rewrite waits_of_app, app_nil_r.
      repeat split; [discriminate | constructor].
    + inversion Hw as [| ? ? Hpid Hps]; subst.
      match goal with
      | |- context [run _ ?w1] =>
          destruct (IH pid Hpid w1 Hps) as [Hn [Hws Ho]]
      end.
      rewrite Hws. simpl. rewrite waits_of_app, app_nil_r.
      repeat split; assumption.
Qed.

(** On its own path, [ForkContinueCommand.execute_control_site] persists,
    forks and returns. *)
Lemma waitless_fork_continue (self : Cmd)
    (cf : Uuid -> Site -> Extra -> Prog PyVal)
    (trace_uuid : Uuid) (site_name : Site) (extra : Extra) :
  (forall tr, waitless (serialize_trace self trace_uuid site_name tr)) ->
  waitless (ForkContinue_execute self (fun _ _ _ => ForkContinue_parent_fct) cf
              trace_uuid site_name extra).
Proof.
  intros Hs. unfold ForkContinue_execute.
  apply waitless_bind; [apply waitless_call; reflexivity | intros _].
  apply waitless_bind; [apply waitless_call; reflexivity | intros tr].
  apply waitless_bind; [apply Hs | intros _].
  apply waitless_fork. intros pid Hpid.
  apply Z.eqb_neq in Hpid. rewrite Hpid. constructor.
Qed.

Lemma waitless_resample_fork_continue (dispatch : Dispatch) (seed : option Z)
    (trace_uuid : Uuid) (site_name : Site) (extra : Extra) :
  waitless (ResampleForkContinue_execute dispatch seed false
              trace_uuid site_name extra).
Proof.
  unfold ResampleForkContinue_execute.
  apply waitless_bind; [apply waitless_lift | intros msg].
  apply waitless_bind; [apply waitless_call; reflexivity | intros _].
  apply waitless_bind;
    [destruct seed; [constructor | apply waitless_call; reflexivity] | intros z].
  apply waitless_bind; [apply waitless_call; reflexivity | intros _].
  apply waitless_bind; [apply waitless_call; reflexivity | intros _].
  apply waitless_bind; [apply waitless_lift | intros ty].
  apply waitless_bind; [apply waitless_assert | intros _].
  apply waitless_bind; [apply waitless_call; reflexivity | intros _].
  apply waitless_bind; [apply waitless_call; reflexivity | intros _].
  apply waitless_bind; [constructor | intros u].
  apply waitless_fork_continue; intros; simpl;
    unfold ForkContinue_serialize_trace;
    repeat (apply waitless_bind; [apply waitless_call; reflexivity | intros]);
    apply waitless_call; reflexivity.
Qed.

(** On its own path the loop of [CloneCommand.parent_fct] only draws
    trace-ids and forks. *)
Lemma waitless_clone_loop (dispatch : Dispatch) (self : Cmd) (n : nat)
    (trace_uuid : Uuid) (site_name : Site) (extra : Extra) :
  waitless (clone_loop dispatch self n trace_uuid site_name extra).
Proof.
  induction n as [| n IH]; simpl; [constructor |].
  apply waitless_vis; [reflexivity | intros u].
  apply waitless_fork. intros pid Hpid.
  apply Z.eqb_neq in Hpid. rewrite Hpid. simpl. exact IH.
Qed.

(** ** The children of a clone *)

(** One iteration of the loop in the process that stays the parent: a
    trace-id is drawn, the fork gives the pid [q] of the child, and the
    loop goes on. *)
Lemma run_clone_loop_step (dispatch : Dispatch) (self : Cmd) (n : nat)
    (trace_uuid : Uuid) (site_name : Site) (extra : Extra)
    (w : World) (q : Z) (rest : list Z) :
  pids w = q :: rest ->
  q <> 0 ->
  exists w1 : World,
    run (clone_loop dispatch self (S n) trace_uuid site_name extra) w
    = run (clone_loop dispatch self n trace_uuid site_name extra) w1 /\
    pids w1 = rest /\
    next_uuid w1 = S (next_uuid w) /\
    log w1 = log w ++ [EvUuid (next_uuid w); EvFork q] /\
    wakes w1 = wakes w /\
    poutine_trace w1 = poutine_trace w /\
    poutine_uuid w1 = poutine_uuid w /\
    np_rng w1 = np_rng w /\
    torch_rng w1 = torch_rng w.
Proof.
  intros Hp Hq. destruct w as [tr u np t ent nu nh npid ps0 ws0 l].
  simpl in Hp. subst ps0. apply Z.eqb_neq in Hq.
  simpl. rewrite Hq. simpl.
  eexists. split; [reflexivity |]. norm_log. repeat split.
Qed.

(** The child of the fork of iteration [length qs] of the loop, the process
    having been the parent in the iterations before (the pids [qs]): it has
    drawn [S (length qs)] trace-ids so far, records one pair for the last
    of them, and calls [self.child_fct] with it; when that call returns, it
    is back in the loop with the [m] iterations that are left. *)
Lemma run_clone_loop_child (dispatch : Dispatch) (self : Cmd)
    (trace_uuid : Uuid) (site_name : Site) (extra : Extra)
    (ps : list Z) (m : nat) :
  forall (qs : list Z) (w : World),
    Forall (fun pid => pid <> 0) qs ->
    pids w = qs ++ 0 :: ps ->
    exists w' : World,
      run (clone_loop dispatch self (List.length qs + S m)
             trace_uuid site_name extra) w
      = and_then (run (child_fct dispatch self
                         (next_uuid w + List.length qs)%nat
                         site_name extra) w')
                 (fun _ => clone_loop dispatch self m
                             trace_uuid site_name extra) /\
      pids w' = ps /\ wakes w' = wakes w /\
      poutine_trace w' = poutine_trace w /\
      poutine_uuid w' = Some (next_uuid w + List.length qs)%nat /\
      np_rng w' = np_rng w /\ torch_rng w' = torch_rng w /\
      uuids_of (log w')
      = uuids_of (log w) ++ seq (next_uuid w) (S (List.length qs)) /\
      pairs_of (log w')
      = pairs_of (log w)
        ++ [get_pair_name trace_uuid (next_uuid w + List.length qs)%nat
              site_name] /\
      waits_of (log w') = waits_of (log w).
Proof.
  induction qs as [| q qs IH]; intros w Hqs Hp.
  - destruct w as [tr u np t ent nu nh npid ps0 ws0 l]. simpl in Hp. subst ps0.
    change (List.length (@nil Z) + S m)%nat with (S m).
    simpl List.length. rewrite Nat.add_0_r.
    simpl. eexists. split.
    + rewrite !run_bind, and_then_assoc. simpl. reflexivity.
    + norm_log. rewrite uuids_of_app, pairs_of_app, waits_of_app. simpl.
      rewrite !app_nil_r. repeat split.
  - inversion Hqs as [| ? ? Hq Hqs']; subst.
    change (List.length (q :: qs) + S m)%nat
      with (S (List.length qs + S m)).
    destruct (run_clone_loop_step dispatch self (List.length qs + S m)
                trace_uuid site_name extra w Hp Hq)
      as [w1 [Hrun [Hp1 [Hnu [Hl1 [Hwk [Htr [Hu [Hnp Ht]]]]]]]]].
    destruct (IH w1 Hqs' Hp1)
      as [w' [Hrun' [Hp' [Hwk' [Htr' [Hu' [Hnp' [Ht' [Hus [Hpk Hwt]]]]]]]]]].
    exists w'. rewrite Hrun, Hrun'.
    rewrite Hnu in *. rewrite Hl1 in *.
    rewrite uuids_of_app in Hus. rewrite pairs_of_app in Hpk.
    rewrite waits_of_app in Hwt. simpl in Hus, Hpk, Hwt.
    rewrite app_nil_r in Hpk, Hwt. rewrite <- app_assoc in Hus.
    simpl List.length. rewrite Nat.add_succ_r.
    repeat split; try congruence; assumption.
Qed.

Lemma execute_clone_family (fuel : nat) (self : Cmd)
    (trace_uuid : Uuid) (site_name : Site) (extra : Extra) :
  match self with
  | CloneCommand _ | ResampleCloneContinueCommand _ _ => True
  | _ => False
  end ->
  execute_control_site fuel self trace_uuid site_name extra
  = ForkContinue_execute self
      (parent_fct (dispatch_at fuel) self) (child_fct (dispatch_at fuel) self)
      trace_uuid site_name extra.
Proof. destruct self; intro H; try contradiction; destruct fuel; reflexivity. Qed.

Lemma and_then_quiet {A C : Type} (r : Final A * World) (f : A -> Prog C)
    (l0 : list Key) :
  fst r <> Parked ->
  waits_of (log (snd r)) = l0 ->
  own_process (snd r) ->
  (forall a, waitless (f a)) ->
  fst (and_then r f) <> Parked /\ waits_of (log (snd (and_then r f))) = l0.
Proof.
  intros Hn Hl Ho Hf. destruct r as [[a | e | c | |] w]; simpl in *;
    try (split; [discriminate | assumption]); try contradiction;
    try (exfalso; apply Hn; reflexivity).
  destruct (waitless_run (Hf a) Ho) as [Hn' [Hl' _]].
  rewrite Hl'. split; assumption.
Qed.

(** The children spawned by [ResampleCloneContinueCommand].  The child of
    the fork of [execute_control_site] runs
    [ResampleForkContinueCommand(seed, uuid_on_sample=False)
    .execute_control_site] on the original trace-id and that is all it
    does.  The child of an iteration of the loop runs it on the trace-id
    drawn in that iteration, after the one pair record, and then goes on:
    [parent_fct] does not return what [child_fct] returned, so the child is
    back in the loop for the iterations that are left and ends in the
    [os._exit(0)] after the loop.  As long as a child stays the process it
    is (the parent of every fork it makes afterwards), it never calls
    [add_lock_and_wait] and never parks. *)
Lemma run_resample_clone_child :
  forall (w : World) (fuel : nat) (seed : option Z) (clone_count : Z)
         (trace_uuid : Uuid) (site_name : Site) (extra : Extra)
         (ps : list Z),
    Forall (fun pid => pid <> 0) ps ->
    let self := ResampleCloneContinueCommand seed clone_count in
    let r := run (execute_control_site fuel self trace_uuid site_name extra) w in
    (pids w = 0 :: ps ->
     exists w' : World,
       r = run (spec_resample_clone_child fuel seed trace_uuid site_name extra) w' /\
       log w' = log w ++ [EvPrint "Fork/Continue at site: {}, {}, {}"
                            [ShUuid trace_uuid; ShSite site_name; ShPoutine];
                          EvFork 0] /\
       poutine_trace w' = poutine_trace w /\
       fst r <> Parked /\
       waits_of (log (snd r)) = waits_of (log w)) /\
    (forall (p : Z) (qs : list Z) (m : nat),
        p <> 0 ->
        Forall (fun pid => pid <> 0) qs ->
        pids w = p :: qs ++ 0 :: ps ->
        range_len clone_count = (List.length qs + S m)%nat ->
        let new := (next_uuid w + List.length qs)%nat in
        exists w' : World,
          r = and_then
                (run (spec_resample_clone_child fuel seed new site_name extra) w')
                (fun _ => clone_loop (dispatch_at fuel) self m
                            trace_uuid site_name extra ;; OsExit 0) /\
          pairs_of (log w')
          = pairs_of (log w) ++ [get_pair_name trace_uuid new site_name] /\
          poutine_trace w' = poutine_trace w /\
          poutine_uuid w' = Some new /\
          fst r <> Parked /\
          waits_of (log (snd r)) = waits_of (log w)).
Proof.
  intros w fuel seed clone_count trace_uuid site_name extra ps Hps self r.
  subst r. unfold spec_resample_clone_child.
  rewrite (execute_clone_family fuel self trace_uuid site_name extra I).
  split.
  - intro Hp.
    destruct w as [tr u np t ent nu nh npid ps0 ws0 l]. simpl in Hp. subst ps0.
    eexists. split; [| split; [| split]].
    + rewrite execute_resample_fork_continue. norm_log. reflexivity.
    + norm_log. reflexivity.
    + reflexivity.
    + unfold ForkContinue_execute. norm_log.
      match goal with
      | |- context [run ?q ?w1] =>
          destruct (@waitless_run _ q
                      (waitless_resample_fork_continue (dispatch_at fuel) seed
                         trace_uuid site_name extra) w1 Hps) as [Hn [Hl _]]
      end.
      split; [exact Hn |].
      rewrite Hl. simpl. rewrite waits_of_app. simpl. apply app_nil_r.
  - intros p qs m Hpz Hqs Hp Hlen. cbv zeta.
    destruct w as [tr u np t ent nu nh npid ps0 ws0 l]. simpl in Hp. subst ps0.
    unfold ForkContinue_execute. simpl.
    apply Z.eqb_neq in Hpz. rewrite Hpz.
    unfold Clone_parent_fct. rewrite Hlen, run_bind.
    match goal with
    | |- context [run (clone_loop _ _ _ _ _ _) ?w1] =>
        destruct (@run_clone_loop_child (dispatch_at fuel) self trace_uuid
                    site_name extra ps m qs w1 Hqs eq_refl)
          as [w' [Hr [Hp' [_ [Htr [Hu [_ [_ [_ [Hpk Hwt]]]]]]]]]]
    end.
    rewrite Hr, and_then_assoc. exists w'.
    revert Hpk Hwt Htr Hu. norm_log.
    rewrite !pairs_of_app, !waits_of_app. simpl. rewrite !app_nil_r.
    intros Hpk Hwt Htr Hu.
    split; [rewrite execute_resample_fork_continue; reflexivity |].
    split; [exact Hpk |]. split; [exact Htr |]. split; [exact Hu |].
    assert (Ho : own_process w') by (unfold own_process; rewrite Hp'; exact Hps).
    destruct (waitless_run
                (waitless_resample_fork_continue (dispatch_at fuel) seed
                   (nu + List.length qs)%nat site_name extra) Ho)
      as [Hn [Hl Ho']].
    apply and_then_quiet; auto.
    + rewrite <- Hwt. exact Hl.
    + intros _. apply waitless_bind; [apply waitless_clone_loop | constructor].
Qed.

(** ** Clone: the process that runs the loop *)

(** The process that stays the parent through [n] iterations draws [n]
    trace-ids, one after the other, records no pair itself and leaves the
    trace object alone. *)
Lemma run_clone_loop_parent (dispatch : Dispatch) (self : Cmd)
    (trace_uuid : Uuid) (site_name : Site) (extra : Extra) :
  forall (n : nat) (w : World),
    own_process w ->
    (n <= List.length (pids w))%nat ->
    exists w' : World,
      run (clone_loop dispatch self n trace_uuid site_name extra) w
      = (Returned tt, w') /\
      uuids_of (log w') = uuids_of (log w) ++ seq (next_uuid w) n /\
      pairs_of (log w') = pairs_of (log w) /\
      waits_of (log w') = waits_of (log w) /\
      poutine_trace w' = poutine_trace w /\
      poutine_uuid w' = poutine_uuid w /\
      own_process w'.
Proof.
  induction n as [| n IH]; intros w Ho Hlen.
  - exists w. simpl. rewrite app_nil_r. repeat split; assumption.
  - destruct w as [tr u np t ent nu nh npid ps0 ws0 l].
    unfold own_process in Ho. simpl in Ho, Hlen.
    destruct ps0 as [| pid ps0]; [simpl in Hlen; lia |].
    inversion Ho as [| ? ? Hpid Hps]; subst.
    simpl. apply Z.eqb_neq in Hpid. rewrite Hpid. simpl.
    match goal with
    | |- context [run _ ?w1] =>
        destruct (IH w1 Hps ltac:(simpl in *; lia)) as [w' Hw']
    end.
    exists w'. revert Hw'. norm_log.
    rewrite !uuids_of_app, !pairs_of_app, !waits_of_app. simpl.
    rewrite !app_nil_r, <- !app_assoc. simpl. intro Hw'. exact Hw'.
Qed.

(** [CloneCommand.parent_fct] in the process that is the parent of every
    fork: [clone_count] trace-ids, then [os._exit(0)]; it never returns. *)
Lemma run_clone_parent_exits (fuel : nat) (clone_count : Z)
    (trace_uuid : Uuid) (site_name : Site) (extra : Extra) (w : World) :
  own_process w ->
  (S (range_len clone_count) <= List.length (pids w))%nat ->
  let r := run (execute_control_site fuel (CloneCommand clone_count)
                  trace_uuid site_name extra) w in
  fst r = Exited 0 /\
  uuids_of (log (snd r))
  = uuids_of (log w) ++ seq (next_uuid w) (range_len clone_count) /\
  pairs_of (log (snd r)) = pairs_of (log w) /\
  waits_of (log (snd r)) = waits_of (log w).
Proof.
  intros Ho Hlen r. subst r.
  rewrite (execute_clone_family fuel (CloneCommand clone_count)
             trace_uuid site_name extra I).
  destruct w as [tr u np t ent nu nh npid ps0 ws0 l].
  unfold own_process in Ho. simpl in Ho, Hlen.
  destruct ps0 as [| pid ps0]; [simpl in Hlen; lia |].
  inversion Ho as [| ? ? Hpid Hps]; subst.
  unfold ForkContinue_execute. simpl.
  apply Z.eqb_neq in Hpid. rewrite Hpid.
  unfold Clone_parent_fct. rewrite run_bind.
  match goal with
  | |- context [run (clone_loop ?d ?c ?n ?a ?b ?x) ?w1] =>
      destruct (@run_clone_loop_parent d c a b x n w1 Hps
                  ltac:(simpl in *; lia))
        as [w' [Hr [Hu [Hpk [Hwt _]]]]]
  end.
  rewrite Hr. revert Hu Hpk Hwt. norm_log.
  rewrite !uuids_of_app, !pairs_of_app, !waits_of_app. simpl.
  rewrite !app_nil_r. intros Hu Hpk Hwt.
  rewrite log_emit, uuids_of_app, pairs_of_app, waits_of_app. simpl.
  rewrite !app_nil_r. repeat split; assumption.
Qed.

End Properties.

(** * Further properties of the commands *)

Section Further.

Context {B : Backend}.

Ltac norm_run := simpl; repeat rewrite <- app_assoc; simpl.

Lemma trace_slot_app (l1 l2 : list Event) (u : Uuid) (s : Site) :
  trace_slot (l1 ++ l2) u s
  = match trace_slot l2 u s with
    | Some b => Some b
    | None => trace_slot l1 u s
    end.
Proof.
  induction l1 as [| ev l1 IH]; simpl.
  - destruct (trace_slot l2 u s); reflexivity.
  - rewrite IH. destruct (trace_slot l2 u s); reflexivity.
Qed.

Lemma trace_slot_persist (h : Handle) (u : Uuid) (s : Site) (tr : Trace)
    (tail : list Event) :
  trace_slot tail u s = None ->
  trace_slot (persist_events h u s tr ++ tail) u s = Some (dumps (PyDict tr)).
Proof.
  intro Ht. rewrite trace_slot_app, Ht. unfold persist_events. simpl.
  rewrite Nat.eqb_refl, String.eqb_refl. reflexivity.
Qed.

(** ** Continue, on the side of the parent *)

(** X1: in the parent of its fork, [ForkContinueCommand] returns [None]
    at once: it has stored the pickle of the trace under (trace-id, site),
    whatever was stored there before, has closed the connection it used,
    has waited on nothing, and the trace object is as it was. *)
Theorem fork_continue_parent_persists_and_returns :
  forall (w : World) (fuel : nat) (trace_uuid : Uuid) (site_name : Site)
         (extra : Extra) (pid : Z) (ps : list Z),
    pids w = pid :: ps ->
    pid <> 0 ->
    let r := run (execute_control_site fuel ForkContinueCommand
                    trace_uuid site_name extra) w in
    let done := persist_events (next_handle w) trace_uuid site_name
                  (poutine_trace w) ++ [EvFork pid] in
    fst r = Returned PyNone /\
    log (snd r) = log w ++ done /\
    trace_slot (log (snd r)) trace_uuid site_name
    = Some (dumps (PyDict (poutine_trace w))) /\
    open_handles done = [] /\
    waits_of done = [] /\
    poutine_trace (snd r) = poutine_trace w /\
    poutine_uuid (snd r) = poutine_uuid w /\
    wakes (snd r) = wakes w.
Proof.
  intros w fuel trace_uuid site_name extra pid ps Hp Hpid r done.
  assert (Hrun : r = (Returned PyNone,
                      set_pids ps (set_next_handle (S (next_handle w))
                        (MkWorld (poutine_trace w) (poutine_uuid w) (np_rng w)
                           (torch_rng w) (os_entropy w) (next_uuid w)
                           (next_handle w) (next_pid w) (pids w) (wakes w)
                           (log w ++ done))))).
  { subst r done. unfold persist_events.
    destruct w as [tr u np t ent nu nh npid ps0 ws0 l]; simpl in Hp; subst.
    apply Z.eqb_neq in Hpid.
    destruct fuel; simpl; rewrite Hpid; norm_run; reflexivity. }
  rewrite Hrun. simpl. repeat split.
  - subst done. rewrite trace_slot_app.
    rewrite (@trace_slot_persist (next_handle w) trace_uuid site_name
               (poutine_trace w) [EvFork pid] eq_refl).
    reflexivity.
  - subst done. unfold persist_events. simpl. rewrite Nat.eqb_refl. reflexivity.
Qed.

(** X2: when [os.fork] fails, [ForkContinueCommand] raises the [OSError]
    with the trace already stored under (trace-id, site): the write is not
    undone. *)
Theorem fork_continue_fork_failure_leaves_trace_stored :
  forall (w : World) (fuel : nat) (trace_uuid : Uuid) (site_name : Site)
         (extra : Extra),
    pids w = [] ->
    let r := run (execute_control_site fuel ForkContinueCommand
                    trace_uuid site_name extra) w in
    fst r = Raised (OSError "fork") /\
    log (snd r) = log w ++ persist_events (next_handle w) trace_uuid site_name
                             (poutine_trace w) ++ [EvForkFailed] /\
    trace_slot (log (snd r)) trace_uuid site_name
    = Some (dumps (PyDict (poutine_trace w))).
Proof.
  intros w fuel trace_uuid site_name extra Hp r.
  assert (Hrun : fst r = Raised (OSError "fork") /\
                 log (snd r) = log w ++ persist_events (next_handle w)
                                 trace_uuid site_name (poutine_trace w)
                                 ++ [EvForkFailed]).
  { subst r. unfold persist_events.
    destruct w as [tr u np t ent nu nh npid ps0 ws0 l]; simpl in Hp; subst.
    destruct fuel; norm_run; split; reflexivity. }
  destruct Hrun as [Hf Hl]. repeat split; try assumption.
  rewrite Hl, trace_slot_app.
  rewrite (@trace_slot_persist (next_handle w) trace_uuid site_name
             (poutine_trace w) [EvForkFailed] eq_refl).
  reflexivity.
Qed.

(** ** Clone: the child of the first fork *)

(** X3: [CloneCommand] stores no trace, and the child of the fork of its
    [execute_control_site] waits on the key of the original trace-id and
    site: no trace-id is drawn for it and no pair is recorded. *)
Theorem clone_first_child_waits_at_original_key :
  forall (w : World) (fuel : nat) (clone_count : Z) (trace_uuid : Uuid)
         (site_name : Site) (extra : Extra) (ps : list Z),
    pids w = 0 :: ps ->
    let r := run (execute_control_site fuel (CloneCommand clone_count)
                    trace_uuid site_name extra) w in
    let before :=
      [EvPrint "Fork/Continue at site: {}, {}, {}"
         [ShUuid trace_uuid; ShSite site_name; ShPoutine];
       EvFork 0] in
    (exists rest : list Event,
        log (snd r) = log w ++ before
                            ++ wait_events (next_handle w)
                                 (get_trace_key trace_uuid site_name)
                                 (next_wake w)
                            ++ rest) /\
    filter is_store_write before = [] /\
    (wakes w = [] ->
     fst r = Parked /\
     trace_slot (log (snd r)) trace_uuid site_name
     = trace_slot (log w) trace_uuid site_name /\
     uuids_of (log (snd r)) = uuids_of (log w) /\
     pairs_of (log (snd r)) = pairs_of (log w) /\
     poutine_uuid (snd r) = poutine_uuid w).
Proof.
  intros w fuel clone_count trace_uuid site_name extra ps Hp r before.
  subst r before.
  rewrite (execute_clone_family fuel (CloneCommand clone_count)
             trace_uuid site_name extra I).
  unfold ForkContinue_execute, wait_events, next_wake.
  destruct w as [tr u np t ent nu nh npid ps0 ws0 l]; simpl in Hp; subst.
  split; [| split; [reflexivity |]].
  - destruct ws0 as [| [pv | e |] ws0].
    + exists []. norm_run. reflexivity.
    + destruct pv as [| b | z | s | items | c];
        try (eexists; norm_run; reflexivity).
      simpl.
      match goal with
      | |- context [run ?p ?w0] => destruct (run_log p w0) as [evs Hevs]
      end.
      rewrite Hevs. eexists. norm_run. reflexivity.
    + exists []. norm_run. reflexivity.
    + exists []. norm_run. reflexivity.
  - intro Hw. simpl in Hw. subst. norm_run.
    rewrite trace_slot_app, uuids_of_app, pairs_of_app. simpl.
    rewrite !app_nil_r. repeat split.
Qed.

(** ** What a waiter does with the command that wakes it *)



(** ** Clone: the parent and the children of the loop *)

(** X6: the process that runs [CloneCommand.parent_fct] and stays the
    parent of every fork draws [range(clone_count)] trace-ids, all
    different, records no pair and stores no trace itself, waits on
    nothing, and leaves through [os._exit(0)]: it never returns.  With a
    [clone_count] that is not positive it draws none and still exits. *)
Theorem clone_parent_draws_count_ids_and_exits :
  forall (w : World) (fuel : nat) (clone_count : Z) (trace_uuid : Uuid)
         (site_name : Site) (extra : Extra),
    own_process w ->
    (S (range_len clone_count) <= List.length (pids w))%nat ->
    let r := run (execute_control_site fuel (CloneCommand clone_count)
                    trace_uuid site_name extra) w in
    let drawn := seq (next_uuid w) (range_len clone_count) in
    fst r = Exited 0 /\
    uuids_of (log (snd r)) = uuids_of (log w) ++ drawn /\
    List.length drawn = Z.to_nat clone_count /\
    NoDup drawn /\
    (clone_count <= 0 -> drawn = []) /\
    pairs_of (log (snd r)) = pairs_of (log w) /\
    waits_of (log (snd r)) = waits_of (log w).
Proof.
  intros w fuel clone_count trace_uuid site_name extra Ho Hlen r drawn.
  destruct (run_clone_parent_exits fuel clone_count trace_uuid site_name
              extra Ho Hlen) as [Hf [Hu [Hp Hw]]].
  subst r drawn. repeat split; try assumption.
  - apply length_seq.
  - apply seq_NoDup.
  - intro Hc. unfold range_len.
    destruct clone_count; try lia; reflexivity.
Qed.

(** A waiter that no one wakes. *)
Lemma run_child_never_woken (d : Dispatch) (trace_uuid : Uuid)
    (site_name : Site) (extra : Extra) (w : World) :
  wakes w = [] ->
  exists w' : World,
    run (ForkContinue_child_fct d trace_uuid site_name extra) w = (Parked, w') /\
    log w' = log w ++ wait_events (next_handle w)
                        (get_trace_key trace_uuid site_name) Never /\
    poutine_trace w' = poutine_trace w /\
    poutine_uuid w' = poutine_uuid w.
Proof.
  intro Hw. unfold wait_events.
  destruct w as [tr u np t ent nu nh npid ps0 ws0 l]; simpl in Hw; subst.
  eexists. split; [reflexivity |]. norm_run. repeat split.
Qed.

(** X7: the child of iteration [length qs] of the loop of
    [CloneCommand.parent_fct] takes the trace-id drawn in that iteration as
    the [trace_uuid] of the trace object, records the one pair (original,
    new, site), and waits on the key of the new trace-id and site, where it
    stays as long as no one wakes it. *)
Theorem clone_loop_child_pairs_then_waits_at_new_key :
  forall (w : World) (fuel : nat) (clone_count : Z) (trace_uuid : Uuid)
         (site_name : Site) (extra : Extra)
         (p : Z) (qs ps : list Z) (m : nat),
    p <> 0 ->
    Forall (fun pid => pid <> 0) qs ->
    pids w = p :: qs ++ 0 :: ps ->
    range_len clone_count = (List.length qs + S m)%nat ->
    wakes w = [] ->
    let new := (next_uuid w + List.length qs)%nat in
    let r := run (execute_control_site fuel (CloneCommand clone_count)
                    trace_uuid site_name extra) w in
    fst r = Parked /\
    waits_of (log (snd r))
    = waits_of (log w) ++ [get_trace_key new site_name] /\
    pairs_of (log (snd r))
    = pairs_of (log w) ++ [get_pair_name trace_uuid new site_name] /\
    uuids_of (log (snd r))
    = uuids_of (log w) ++ seq (next_uuid w) (S (List.length qs)) /\
    poutine_uuid (snd r) = Some new /\
    poutine_trace (snd r) = poutine_trace w.
Proof.
  intros w fuel clone_count trace_uuid site_name extra p qs ps m
         Hpz Hqs Hp Hlen Hw new r.
  subst new r.
  rewrite (execute_clone_family fuel (CloneCommand clone_count)
             trace_uuid site_name extra I).
  destruct w as [tr u np t ent nu nh npid ps0 ws0 l].
  simpl in Hp, Hw. subst ps0 ws0.
  unfold ForkContinue_execute. simpl.
  apply Z.eqb_neq in Hpz. rewrite Hpz.
  unfold Clone_parent_fct. rewrite Hlen, run_bind.
  match goal with
  | |- context [run (clone_loop _ _ _ _ _ _) ?w1] =>
      destruct (@run_clone_loop_child B (dispatch_at fuel)
                  (CloneCommand clone_count) trace_uuid
                  site_name extra ps m qs w1 Hqs eq_refl)
        as [w' [Hr [_ [Hwk [Htr [Hu [_ [_ [Hus [Hpk Hwt]]]]]]]]]]
  end.
  rewrite Hr. clear Hr. simpl in Hwk, Htr, Hu, Hus, Hpk, Hwt.
  rewrite uuids_of_app in Hus. rewrite pairs_of_app in Hpk.
  rewrite waits_of_app in Hwt. simpl in Hus, Hpk, Hwt.
  rewrite app_nil_r in Hus, Hpk, Hwt.
  cbn [next_uuid child_fct].
  destruct (run_child_never_woken (dispatch_at fuel)
              (nu + List.length qs)%nat site_name extra w' Hwk)
    as [w'' [Hr' [Hl' [Htr' Hu']]]].
  rewrite Hr'. simpl.
  rewrite Hl', waits_of_app, pairs_of_app, uuids_of_app. simpl.
  rewrite !app_nil_r, Hwt, Hpk, Hus, Hu', Hu, Htr', Htr.
  repeat split;
    rewrite ?waits_of_app, ?pairs_of_app, ?uuids_of_app; simpl;
    rewrite ?app_nil_r; reflexivity.
Qed.

(** ** ResampleForkContinue: its message *)

(** The two shapes of call that give the method its message. *)
Lemma bind_msg_binds (extra : Extra) (m : PyVal) :
  bind_msg extra = inr m <->
  extra = one_arg m \/ extra = MkExtra [] [("msg", m)].
Proof.
  destruct extra as [args kw]. unfold bind_msg, one_arg. simpl. split.
  - destruct args as [| a [| a' args]]; destruct kw as [| [k v] [| kv kw]];
      try discriminate.
    + destruct (String.eqb k "msg") eqn:Hk; [| discriminate].
      apply String.eqb_eq in Hk. subst k.
      intro H. injection H as H. subst v. right. reflexivity.
    + intro H. injection H as H. subst a. left. reflexivity.
  - intros [H | H]; injection H as Ha Hk; subst; reflexivity.
Qed.

(** Every other shape is refused with a [TypeError]. *)
Lemma bind_msg_refuses (extra : Extra) (e : Exn) :
  bind_msg extra = inl e -> exists text : string, e = TypeError text.
Proof.
  destruct extra as [args kw]. unfold bind_msg. simpl.
  destruct args as [| a [| a' args]]; destruct kw as [| [k v] [| kv kw]];
    try destruct (String.eqb k "msg");
    intro H; try discriminate H; injection H as H; subst e;
    eexists; reflexivity.
Qed.

(** X8: [ResampleForkContinueCommand.execute_control_site] takes its
    message as the one extra positional argument or as the keyword [msg],
    with the same run either way.  Every other shape of call raises a
    [TypeError], the one of the call itself, before anything is done: no
    generator is reseeded, nothing is logged, the world is as it was. *)
Theorem resample_message_is_bound_before_any_effect :
  forall (w : World) (fuel : nat) (seed : option Z) (uuid_on_sample : bool)
         (trace_uuid : Uuid) (site_name : Site) (extra : Extra),
    let c := ResampleForkContinueCommand seed uuid_on_sample in
    let r := run (execute_control_site fuel c trace_uuid site_name extra) w in
    ((forall m : PyVal,
         extra <> one_arg m /\ extra <> MkExtra [] [("msg", m)]) ->
     exists text : string, r = (Raised (TypeError text), w)) /\
    (forall m : PyVal,
        extra = MkExtra [] [("msg", m)] ->
        r = run (execute_control_site fuel c trace_uuid site_name (one_arg m)) w).
Proof.
  intros w fuel seed uuid_on_sample trace_uuid site_name extra c r.
  subst c r. split.
  - intro Hshape. rewrite execute_resample_fork_continue.
    unfold ResampleForkContinue_execute.
    destruct (bind_msg extra) as [e | m] eqn:Hb.
    + destruct (bind_msg_refuses extra Hb) as [text He]. subst e.
      exists text. reflexivity.
    + apply bind_msg_binds in Hb. destruct (Hshape m) as [H1 H2].
      destruct Hb; contradiction.
  - intros m He. subst extra. rewrite !execute_resample_fork_continue.
    reflexivity.
Qed.

(** X9: for a seed numpy takes, a message that has no "type" entry, or
    that is no dict, makes the method raise from [msg["type"]] (a
    [KeyError] in the first case, a [TypeError] in the second) after both
    generators have been reseeded and before the trace is resampled. *)
Theorem resample_message_without_type_raises_after_reseed :
  forall (w : World) (fuel : nat) (seed : option Z) (uuid_on_sample : bool)
         (trace_uuid : Uuid) (site_name : Site) (extra : Extra)
         (msg : PyVal) (e : Exn),
    np_seed_ok seed = true ->
    bind_msg extra = inr msg ->
    py_getitem msg "type" = inl e ->
    let r := run (execute_control_site fuel
                    (ResampleForkContinueCommand seed uuid_on_sample)
                    trace_uuid site_name extra) w in
    fst r = Raised e /\
    log (snd r) = log w ++ seed_events seed w
                        ++ [EvPrint "Conducting: {}" [ShVal msg]] /\
    poutine_trace (snd r) = poutine_trace w /\
    np_rng (snd r) = snd (reseed seed w) /\
    torch_rng (snd r) = torch_seeded (fst (reseed seed w)) /\
    ((exists items : list (string * PyVal),
         msg = PyDict items /\ dict_get items "type" = None /\
         e = KeyError "type") \/
     ((forall items : list (string * PyVal), msg <> PyDict items) /\
      exists text : string, e = TypeError text)).
Proof.
  intros w fuel seed uuid_on_sample trace_uuid site_name extra msg e
         Hseed Hb Ht r.
  subst r. rewrite execute_resample_fork_continue.
  unfold ResampleForkContinue_execute.
  rewrite Hb. cbn [lift bind]. rewrite (run_seeding _ _ _ Hseed).
  assert (Hcase :
            (exists items : list (string * PyVal),
                msg = PyDict items /\ dict_get items "type" = None /\
                e = KeyError "type") \/
            ((forall items : list (string * PyVal), msg <> PyDict items) /\
             exists text : string, e = TypeError text)).
  { unfold py_getitem in Ht.
    destruct msg as [| b | z | s | items | c];
      try (right; split; [intros ? ?; discriminate |];
           injection Ht as Ht; subst e; eexists; reflexivity).
    left. exists items. destruct (dict_get items "type") eqn:Hd;
      [discriminate Ht |].
    injection Ht as Ht. subst e. repeat split. }
  destruct w as [tr u np t ent nu nh npid ps0 ws0 l]. unfold seeded.
  simpl. rewrite Ht. norm_run. repeat split. exact Hcase.
Qed.

(** X19: a seed numpy does not take (an integer below 0 or above
    2**32 - 1) makes the method raise the [ValueError] of
    [numpy.random.seed] in its first statement, whatever the message:
    nothing is reseeded, printed, resampled or stored, and the world is as
    it was. *)
Theorem resample_seed_out_of_range_raises_first :
  forall (w : World) (fuel : nat) (seed : option Z) (uuid_on_sample : bool)
         (trace_uuid : Uuid) (site_name : Site) (extra : Extra)
         (msg : PyVal),
    np_seed_ok seed = false ->
    bind_msg extra = inr msg ->
    run (execute_control_site fuel
           (ResampleForkContinueCommand seed uuid_on_sample)
           trace_uuid site_name extra) w
    = (Raised np_seed_failure, w) /\
    exists s : Z, seed = Some s /\ (s < 0 \/ 4294967295 < s).
Proof.
  intros w fuel seed uuid_on_sample trace_uuid site_name extra msg Hseed Hb.
  split.
  - rewrite execute_resample_fork_continue.
    unfold ResampleForkContinue_execute.
    rewrite Hb. cbn [lift bind]. apply run_seeding_refused. exact Hseed.
  - destruct seed as [s |]; [| discriminate Hseed].
    exists s. split; [reflexivity |].
    unfold np_seed_ok in Hseed.
    apply andb_false_iff in Hseed.
    destruct Hseed as [H | H]; apply Z.leb_gt in H; lia.
Qed.

(** ** LogPdf after LogPdf *)

(** X10: [LogPdfCommand] does not touch the trace, so a waiter that is
    woken with a second [LogPdfCommand] publishes the same payload under
    the same key again, and waits on the same key again. *)
Theorem log_pdf_woken_with_log_pdf_publishes_again :
  forall (w : World) (fuel : nat) (trace_uuid : Uuid) (site_name : Site)
         (extra : Extra) (ws : list Wake),
    wakes w = Deliver (PyCmd LogPdfCommand) :: ws ->
    let h := next_handle w in
    let k := get_trace_key trace_uuid site_name in
    let v := batch_log_pdf (poutine_trace w) in
    let r := run (execute_control_site (S fuel) LogPdfCommand
                    trace_uuid site_name extra) w in
    exists rest : list Event,
      log (snd r)
      = log w ++ publish_events h k v
              ++ wait_events (S h) k (Deliver (PyCmd LogPdfCommand))
              ++ release_events (S h) k
              ++ publish_events (S (S h)) k v
              ++ wait_events (S (S (S h))) k
                   (match ws with wk :: _ => wk | [] => Never end)
              ++ rest.
Proof.
  intros w fuel trace_uuid site_name extra ws Hw h k v r.
  subst h k v r. unfold publish_events, wait_events, release_events.
  destruct w as [tr u np t ent nu nh npid ps0 ws0 l]; simpl in Hw; subst.
  destruct ws as [| [pv | e |] ws].
  - exists []. destruct fuel; norm_run; reflexivity.
  - destruct pv as [| b | z | s | items | c];
      try (eexists; destruct fuel; norm_run; reflexivity).
    destruct fuel.
    + eexists. norm_run. reflexivity.
    + simpl.
      match goal with
      | |- context [run ?p ?w0] => destruct (run_log p w0) as [evs Hevs]
      end.
      rewrite Hevs. eexists. norm_run. reflexivity.
  - exists []. destruct fuel; norm_run; reflexivity.
  - exists []. destruct fuel; norm_run; reflexivity.
Qed.

(** ** Every run ends *)

Lemma execute_control_site_unfold (fuel : nat) (self : Cmd)
    (trace_uuid : Uuid) (site_name : Site) (extra : Extra) :
  execute_control_site fuel self trace_uuid site_name extra
  = execute_with (dispatch_at fuel) self trace_uuid site_name extra.
Proof. destruct fuel, self; reflexivity. Qed.

Lemma handle_wakes_le {X : Type} (e : Eff X) (w : World) :
  (List.length (wakes (snd (handle e w))) <= List.length (wakes w))%nat.
Proof.
  destruct w as [tr u np t ent nu nh npid ps ws l].
  destruct e; simpl;
    repeat match goal with
           | |- context [if ?b then _ else _] => destruct b
           | |- context [let '(_, _) := ?x in _] => destruct x
           end;
    simpl; try lia.
  destruct ws as [| [v | ex |] ws]; simpl; lia.
Qed.

(** No call hands a wake-up back. *)
Lemma run_wakes_le {A : Type} (p : Prog A) (w : World) :
  (List.length (wakes (snd (run p w))) <= List.length (wakes w))%nat.
Proof.
  revert w.
  induction p as [a | e | c | | X e k IH | k IH]; intro w; simpl; try lia.
  - destruct w; simpl; lia.
  - pose proof (handle_wakes_le e w) as Hh.
    destruct (handle e w) as [[x | ex |] w']; simpl in *; try lia.
    specialize (IH x w'). lia.
  - destruct w as [tr u np t ent nu nh npid ps ws l]. simpl.
    destruct ps as [| pid ps]; simpl; [lia |].
    match goal with
    | |- context [run _ ?w1] => specialize (IH pid w1)
    end.
    simpl in IH. exact IH.
Qed.

Lemma handle_keeps_wakes {X : Type} (e : Eff X) (w : World) :
  is_wait e = false ->
  wakes (snd (handle e w)) = wakes w.
Proof.
  intro He. destruct w as [tr u np t ent nu nh npid ps ws l].
  destruct e; try discriminate He; simpl;
    repeat match goal with
           | |- context [if ?b then _ else _] => destruct b
           | |- context [let '(_, _) := ?x in _] => destruct x
           end;
    reflexivity.
Qed.

Lemma bounded_ret {A : Type} (n : nat) (a : A) : bounded n (Ret a).
Proof. intros w _. discriminate. Qed.

Lemma bounded_raise {A : Type} (n : nat) (e : Exn) :
  bounded n (@Raise B A e).
Proof. intros w _. discriminate. Qed.

Lemma bounded_exit {A : Type} (n : nat) (c : Z) :
  bounded n (@OsExit B A c).
Proof. intros w _. discriminate. Qed.

Lemma bounded_vis {A X : Type} (n : nat) (e : Eff X) (k : X -> Prog A) :
  is_wait e = false ->
  (forall x, bounded n (k x)) ->
  bounded n (Vis e k).
Proof.
  intros He Hk w Hlt. simpl.
  pose proof (handle_keeps_wakes e w He) as Hw.
  destruct (handle e w) as [[x | ex |] w']; simpl in Hw;
    [| discriminate | discriminate].
  apply Hk. rewrite Hw. exact Hlt.
Qed.

Lemma bounded_call {X : Type} (n : nat) (e : Eff X) :
  is_wait e = false -> bounded n (call e).
Proof. intro He. apply bounded_vis; [exact He | intro x; apply bounded_ret]. Qed.

(** A wait uses up the wake-up it returns with. *)
Lemma bounded_wait {A : Type} (n : nat) (h : Handle) (key : Key)
    (k : PyVal -> Prog A) :
  (forall v, bounded (pred n) (k v)) ->
  bounded n (Vis (AddLockAndWait h key) k).
Proof.
  intros Hk w Hlt. destruct w as [tr u np t ent nu nh npid ps ws l].
  simpl in Hlt. simpl.
  destruct ws as [| [v | ex |] ws]; simpl; try discriminate.
  apply Hk. simpl in *. lia.
Qed.

Lemma bounded_fork {A : Type} (n : nat) (k : Z -> Prog A) :
  (forall pid, bounded n (k pid)) -> bounded n (Fork k).
Proof.
  intros Hk w Hlt. destruct w as [tr u np t ent nu nh npid ps ws l].
  simpl in Hlt. simpl.
  destruct ps as [| pid ps]; simpl; [discriminate |].
  apply Hk. simpl. exact Hlt.
Qed.

Lemma bounded_bind {A C : Type} (n : nat) (m : Prog A) (f : A -> Prog C) :
  bounded n m -> (forall a, bounded n (f a)) -> bounded n (bind m f).
Proof.
  intros Hm Hf w Hlt. rewrite run_bind.
  pose proof (run_wakes_le m w) as Hle. specialize (Hm w Hlt).
  destruct (run m w) as [[a | e | c | |] w']; simpl in *;
    try discriminate; try (exfalso; apply Hm; reflexivity).
  apply Hf. lia.
Qed.

Lemma bounded_lift {A : Type} (n : nat) (r : Exn + A) : bounded n (lift r).
Proof. destruct r; [apply bounded_raise | apply bounded_ret]. Qed.

Lemma bounded_assert (n : nat) (b : bool) (msg : string) :
  bounded n (py_assert b msg).
Proof. destruct b; [apply bounded_ret | apply bounded_raise]. Qed.

Section WithDispatch.

Variable d : Dispatch.
Variable n : nat.
Hypothesis Hd : forall c u s x, bounded (pred n) (d c u s x).

Lemma bounded_wake_dispatch (wake : PyVal) (u : Uuid) (s : Site) (x : Extra) :
  bounded (pred n)
    (py_assert (is_control_command wake)
               "Lock must be behavior for lock release" ;;
     match wake with
     | PyCmd c => d c u s x
     | _ => Raise (AttributeError "execute_control_site")
     end).
Proof.
  apply bounded_bind; [apply bounded_assert | intros _].
  destruct wake; try apply bounded_raise. apply Hd.
Qed.

Lemma bounded_child_fct_wait (u : Uuid) (s : Site) (x : Extra) :
  bounded n (ForkContinue_child_fct d u s x).
Proof.
  unfold ForkContinue_child_fct, wait_on_lock, print, call. simpl.
  apply bounded_vis; [reflexivity | intro h].
  apply bounded_vis; [reflexivity | intros _].
  apply bounded_wait. intro wake.
  apply bounded_vis; [reflexivity | intros _].
  apply bounded_vis; [reflexivity | intros _].
  apply bounded_wake_dispatch.
Qed.

Lemma bounded_log_pdf (u : Uuid) (s : Site) (x : Extra) :
  bounded n (LogPdf_execute d u s x).
Proof.
  unfold LogPdf_execute, wait_on_lock, print, call. simpl.
  apply bounded_vis; [reflexivity | intro v].
  apply bounded_vis; [reflexivity | intro h].
  apply bounded_vis; [reflexivity | intro h'].
  apply bounded_vis; [reflexivity | intros _].
  apply bounded_vis; [reflexivity | intro h''].
  apply bounded_vis; [reflexivity | intros _].
  apply bounded_wait. intro wake.
  apply bounded_vis; [reflexivity | intros _].
  apply bounded_vis; [reflexivity | intros _].
  apply bounded_wake_dispatch.
Qed.

Lemma bounded_serialize_trace (self : Cmd) (u : Uuid) (s : Site) (tr : Trace) :
  bounded n (serialize_trace self u s tr).
Proof.
  destruct self; simpl;
    try apply bounded_raise; try apply bounded_ret;
    unfold ForkContinue_serialize_trace;
    repeat (apply bounded_bind; [apply bounded_call; reflexivity | intros]);
    apply bounded_call; reflexivity.
Qed.

Lemma bounded_fork_continue (self : Cmd)
    (pf cf : Uuid -> Site -> Extra -> Prog PyVal)
    (u : Uuid) (s : Site) (x : Extra) :
  (forall u' s' x', bounded n (pf u' s' x')) ->
  (forall u' s' x', bounded n (cf u' s' x')) ->
  bounded n (ForkContinue_execute self pf cf u s x).
Proof.
  intros Hpf Hcf. unfold ForkContinue_execute.
  apply bounded_bind; [apply bounded_call; reflexivity | intros _].
  apply bounded_bind; [apply bounded_call; reflexivity | intro tr].
  apply bounded_bind; [apply bounded_serialize_trace | intros _].
  apply bounded_fork. intro pid. destruct (pid =? 0); auto.
Qed.

Lemma bounded_resample_fork_continue (seed : option Z) (uos : bool)
    (u : Uuid) (s : Site) (x : Extra) :
  bounded n (ResampleForkContinue_execute d seed uos u s x).
Proof.
  unfold ResampleForkContinue_execute.
  apply bounded_bind; [apply bounded_lift | intro msg].
  apply bounded_bind; [apply bounded_call; reflexivity | intros _].
  apply bounded_bind;
    [destruct seed; [apply bounded_ret | apply bounded_call; reflexivity]
    | intro z].
  apply bounded_bind; [apply bounded_call; reflexivity | intros _].
  apply bounded_bind; [apply bounded_call; reflexivity | intros _].
  apply bounded_bind; [apply bounded_lift | intro ty].
  apply bounded_bind; [apply bounded_assert | intros _].
  apply bounded_bind; [apply bounded_call; reflexivity | intros _].
  apply bounded_bind; [apply bounded_call; reflexivity | intros _].
  apply bounded_bind.
  - destruct uos; [| apply bounded_ret]. unfold fresh_trace_uuid.
    repeat (apply bounded_bind; [apply bounded_call; reflexivity | intros]).
    apply bounded_ret.
  - intro u'. apply bounded_fork_continue.
    + intros. apply bounded_ret.
    + intros. apply bounded_child_fct_wait.
Qed.

Lemma bounded_child_fct (self : Cmd) (u : Uuid) (s : Site) (x : Extra) :
  bounded n (child_fct d self u s x).
Proof.
  destruct self; simpl; try apply bounded_raise;
    try apply bounded_child_fct_wait.
  apply bounded_resample_fork_continue.
Qed.

Lemma bounded_clone_loop (self : Cmd) (iters : nat)
    (u : Uuid) (s : Site) (x : Extra) :
  bounded n (clone_loop d self iters u s x).
Proof.
  induction iters as [| iters IH]; simpl; [apply bounded_ret |].
  apply bounded_vis; [reflexivity | intro new].
  apply bounded_fork. intro pid.
  apply bounded_bind; [| intros _; exact IH].
  destruct (pid =? 0); [| apply bounded_ret].
  repeat (apply bounded_vis; [reflexivity | intros]).
  apply bounded_bind; [apply bounded_child_fct | intros; apply bounded_ret].
Qed.

Lemma bounded_parent_fct (self : Cmd) (u : Uuid) (s : Site) (x : Extra) :
  bounded n (parent_fct d self u s x).
Proof.
  destruct self; simpl; try apply bounded_raise; try apply bounded_ret;
    unfold Clone_parent_fct;
    (apply bounded_bind; [apply bounded_clone_loop | intros; apply bounded_exit]).
Qed.

Lemma bounded_execute_with (self : Cmd) (u : Uuid) (s : Site) (x : Extra) :
  bounded n (execute_with d self u s x).
Proof.
  destruct self; simpl;
    try apply bounded_raise; try apply bounded_exit;
    try apply bounded_log_pdf; try apply bounded_resample_fork_continue;
    (apply bounded_fork_continue;
     [intros; apply bounded_parent_fct | intros; apply bounded_child_fct]).
Qed.

End WithDispatch.

Lemma bounded_execute (fuel : nat) :
  forall (self : Cmd) (u : Uuid) (s : Site) (x : Extra),
    bounded (S fuel) (execute_control_site fuel self u s x).
Proof.
  induction fuel as [| fuel IH]; intros self u s x;
    rewrite execute_control_site_unfold; apply bounded_execute_with.
  - intros c u' s' x' w Hlt. simpl in Hlt. lia.
  - intros c u' s' x'. simpl. apply IH.
Qed.

(** X11: a process that is given at most [fuel] wake-ups handles every one
    of them: whatever command it starts with and whatever it is woken
    with, its run ends by returning, raising, leaving through [os._exit]
    or parking on a lock for good, never by running out of dispatches.
    Each command that is dispatched has used up one wake-up. *)
Theorem every_run_ends :
  forall (w : World) (fuel : nat) (self : Cmd) (trace_uuid : Uuid)
         (site_name : Site) (extra : Extra),
    (List.length (wakes w) <= fuel)%nat ->
    let r := run (execute_control_site fuel self trace_uuid site_name extra) w in
    fst r <> FuelOut /\
    (List.length (wakes (snd r)) <= List.length (wakes w))%nat.
Proof.
  intros w fuel self trace_uuid site_name extra Hle r. subst r. split.
  - apply bounded_execute. lia.
  - apply run_wakes_le.
Qed.

End Further.

(** * Properties of the feature models *)

Section FeatureProperties.

Variables (Val DistObj LibExn St : Type).

(** ** Strings *)

(** The characters of a string, last first. *)
Lemma rev_chars_app (a b : string) :
  rev (list_ascii_of_string (a ++ b))
  = rev (list_ascii_of_string b) ++ rev (list_ascii_of_string a).
Proof.
  rewrite <- rev_app_distr. f_equal.
  induction a as [| c a IH]; simpl; [reflexivity | now rewrite IH].
Qed.

Lemma rev_chars_inj (a b : string) :
  rev (list_ascii_of_string a) = rev (list_ascii_of_string b) -> a = b.
Proof.
  intro H. apply (f_equal (@rev _)) in H. rewrite !rev_involutive in H.
  apply (f_equal string_of_list_ascii) in H.
  now rewrite !string_of_list_ascii_of_string in H.
Qed.

Lemma suffixed_eq (n a m b : string) :
  (n ++ a = m ++ b)%string ->
  rev (list_ascii_of_string a) ++ rev (list_ascii_of_string n)
  = rev (list_ascii_of_string b) ++ rev (list_ascii_of_string m).
Proof. intro H. rewrite <- !rev_chars_app. now rewrite H. Qed.

Lemma append_inj_l (n a b : string) :
  (n ++ a = n ++ b)%string -> a = b.
Proof.
  induction n as [| c n IH]; simpl; intro H; [exact H |].
  injection H as H. auto.
Qed.

Lemma append_inj_r (a n m : string) :
  (n ++ a = m ++ a)%string -> n = m.
Proof.
  intro H. apply suffixed_eq in H. apply app_inv_head in H.
  now apply rev_chars_inj.
Qed.

Lemma append_empty_r (a : string) : (a ++ "")%string = a.
Proof. induction a as [| x a IH]; simpl; [reflexivity | now rewrite IH]. Qed.

Lemma append_assoc' (a b c : string) :
  ((a ++ b) ++ c = a ++ (b ++ c))%string.
Proof. induction a as [| x a IH]; simpl; [reflexivity | now rewrite IH]. Qed.

(** ** The sites of a run *)

Ltac answer :=
  match goal with
  | |- context [match ?t with pair _ _ => _ end] =>
      destruct t as [[? | ?] ?]; cbn
  end.

Ltac prefix_upto :=
  first [ exists 0%nat; reflexivity | exists 1%nat; reflexivity
        | exists 2%nat; reflexivity | exists 3%nat; reflexivity
        | exists 4%nat; reflexivity | exists 5%nat; reflexivity
        | exists 6%nat; reflexivity ].

(** The sites of the class, in the order the source names them. *)
Lemma pipeline_sites_prefix (h : Handler Val DistObj LibExn St) (self : Feature) (component : Obj Val)
    (s : St) :
  exists k : nat,
    sites (frun h (feature_pipeline self component) s)
    = firstn k
        (match feature_class self with
         | Boolean => map (String.append (name self))
                          ["_alpha"; "_beta"; "_probs"]%string
         | Real => map (String.append (name self))
                       ["_loc_loc"; "_hyper_scale"; "_scale_alpha";
                        "_scale_beta"; "_scale"; "_loc"]%string
         end).
Proof.
  destruct self as [[|] n]; cbn; repeat answer; prefix_upto.
Qed.

Lemma feature_site_names_distinct (self : Feature) :
  NoDup (match feature_class self with
         | Boolean => map (String.append (name self))
                          ["_alpha"; "_beta"; "_probs"]%string
         | Real => map (String.append (name self))
                       ["_loc_loc"; "_hyper_scale"; "_scale_alpha";
                        "_scale_beta"; "_scale"; "_loc"]%string
         end).
Proof.
  destruct self as [[|] n]; cbn;
    repeat (constructor;
            [cbn; intro H;
             repeat (destruct H as [H | H];
                     [apply append_inj_l in H; discriminate H |]);
             exact H |]);
    constructor.
Qed.

Lemma NoDup_firstn {A : Type} (k : nat) (l : list A) :
  NoDup l -> NoDup (firstn k l).
Proof.
  revert k. induction l as [| a l IH]; intros k H.
  - rewrite firstn_nil. constructor.
  - destruct k as [| k]; cbn; [constructor |].
    inversion H as [| ? ? Hn Hl]; subst. constructor; [| now apply IH].
    intro Hin. apply Hn.
    rewrite <- (firstn_skipn k l). apply in_or_app. now left.
Qed.

Lemma In_firstn {A : Type} (k : nat) (l : list A) (x : A) :
  In x (firstn k l) -> In x l.
Proof.
  intro H. rewrite <- (firstn_skipn k l). apply in_or_app. now left.
Qed.

(** X12: whatever the libraries answer, one pass through a feature (the
    shared parameters, the parameters of the group, the distribution of a
    value) calls [pyro.sample] at no site twice. *)
Theorem pipeline_samples_no_site_twice :
  forall (h : Handler Val DistObj LibExn St) (self : Feature)
         (component : Obj Val) (s : St),
    NoDup (sites (frun h (feature_pipeline self component) s)).
Proof.
  intros h self component s.
  destruct (pipeline_sites_prefix h self component s) as [k Hk].
  rewrite Hk. apply NoDup_firstn. apply feature_site_names_distinct.
Qed.

(** X13: two [Boolean] features with different names never call
    [pyro.sample] at the same site, whatever the libraries answer to
    either. *)
Theorem boolean_features_share_no_site :
  forall (n m : string),
    n <> m ->
    forall (h1 h2 : Handler Val DistObj LibExn St) (c1 c2 : Obj Val)
           (s1 s2 : St) (site : string),
      In site (sites (frun h1 (feature_pipeline (MkFeature Boolean n) c1) s1)) ->
      In site (sites (frun h2 (feature_pipeline (MkFeature Boolean m) c2) s2)) ->
      False.
Proof.
  intros n m Hnm h1 h2 c1 c2 s1 s2 site H1 H2.
  destruct (pipeline_sites_prefix h1 (MkFeature Boolean n) c1 s1) as [k1 E1].
  destruct (pipeline_sites_prefix h2 (MkFeature Boolean m) c2 s2) as [k2 E2].
  rewrite E1 in H1. rewrite E2 in H2.
  apply In_firstn in H1. apply In_firstn in H2. cbn in H1, H2.
  destruct H1 as [H1 | [H1 | [H1 | []]]];
    destruct H2 as [H2 | [H2 | [H2 | []]]];
    subst site; apply suffixed_eq in H2; cbn in H2;
    try discriminate H2;
    injection H2 as H2; apply rev_chars_inj in H2; congruence.
Qed.

Lemma run_pipeline_answered (h : Handler Val DistObj LibExn St) :
  never_raises h ->
  forall (self : Feature) (component : Obj Val) (s : St),
    let out := frun h (feature_pipeline self component) s in
    (exists d, result out = inr d) /\
    sites out
    = match feature_class self with
      | Boolean => map (String.append (name self))
                       ["_alpha"; "_beta"; "_probs"]%string
      | Real => map (String.append (name self))
                    ["_loc_loc"; "_hyper_scale"; "_scale_alpha";
                     "_scale_beta"; "_scale"; "_loc"]%string
      end.
Proof.
  intros Hnr self component s.
  destruct self as [[|] n]; cbn;
    repeat match goal with
           | |- context [match h ?X ?e ?s0 with pair _ _ => _ end] =>
               let E := fresh "E" in
               destruct (Hnr X e s0) as [? E];
               destruct (h X e s0) as [[? | ?] ?]; cbn in E;
               [discriminate E | clear E]; cbn
           end;
    split; [eexists; reflexivity | reflexivity | eexists; reflexivity
           | reflexivity].
Qed.

(** X14: when no library call raises, the usage the class documents goes
    through for both classes: [sample_group] accepts what [sample_shared]
    returned, [value_dist] accepts what [sample_group] returned, a
    distribution comes out, and the sites sampled are the three of
    [Boolean] or the six of [Real], in this order. *)
Theorem pipeline_returns_a_distribution :
  forall (h : Handler Val DistObj LibExn St),
    never_raises h ->
    forall (self : Feature) (component : Obj Val) (s : St),
      let out := frun h (feature_pipeline self component) s in
      (exists d, result out = inr d) /\
      sites out
      = match feature_class self with
        | Boolean => map (String.append (name self))
                         ["_alpha"; "_beta"; "_probs"]%string
        | Real => map (String.append (name self))
                      ["_loc_loc"; "_hyper_scale"; "_scale_alpha";
                       "_scale_beta"; "_scale"; "_loc"]%string
        end.
Proof. exact run_pipeline_answered. Qed.

(** X15: different names do not keep the sites of [Real] features apart:
    the features named [n] and [n ++ "_loc"] both sample the site
    [n ++ "_loc_loc"], the first as its [loc_loc], the second as its
    [loc]. *)
Theorem real_features_with_different_names_share_a_site :
  forall (h1 h2 : Handler Val DistObj LibExn St),
    never_raises h1 -> never_raises h2 ->
    forall (n : string) (c1 c2 : Obj Val) (s1 s2 : St),
      n <> (n ++ "_loc")%string /\
      In (n ++ "_loc_loc")%string
         (sites (frun h1 (feature_pipeline (MkFeature Real n) c1) s1)) /\
      In (n ++ "_loc_loc")%string
         (sites (frun h2 (feature_pipeline
                            (MkFeature Real (n ++ "_loc")) c2) s2)).
Proof.
  intros h1 h2 H1 H2 n c1 c2 s1 s2. split; [| split].
  - intro H. rewrite <- (append_empty_r n) in H at 1.
    apply append_inj_l in H. discriminate H.
  - destruct (run_pipeline_answered H1 (MkFeature Real n) c1 s1) as [_ E].
    rewrite E. cbn. auto.
  - destruct (run_pipeline_answered H2 (MkFeature Real (n ++ "_loc")) c2 s2)
      as [_ E].
    rewrite E. cbn. rewrite (append_assoc' n "_loc" "_loc"). cbn. auto 10.
Qed.

(** X16: no pass through a feature ends in the [ValueError] of an
    unpacking: an exception that ends one was raised by a library call. *)
Theorem pipeline_never_fails_to_unpack :
  forall (h : Handler Val DistObj LibExn St) (self : Feature)
         (component : Obj Val) (s : St) (expected got : nat),
    result (frun h (feature_pipeline self component) s)
    <> inl (ValueError_unpack expected got).
Proof.
  intros h self component s expected got.
  destruct self as [[|] n]; cbn; repeat answer; discriminate.
Qed.

(** X17: the shared parameters of one class are refused by the other.
    [Real.sample_group] given what [Boolean.sample_shared] returned raises
    the [ValueError] of unpacking two items into four targets, and
    [Boolean.sample_group] given what [Real.sample_shared] returned that of
    unpacking four items into two; in both cases no site of the group is
    sampled. *)
Theorem shared_of_the_other_class_is_refused :
  forall (h : Handler Val DistObj LibExn St),
    never_raises h ->
    forall (n m : string) (s : St),
      let b := MkFeature Boolean n in
      let r := MkFeature Real m in
      let out1 := frun h (fbind (sample_shared b) (sample_group r)) s in
      let out2 := frun h (fbind (sample_shared r) (sample_group b)) s in
      result out1 = inl (ValueError_unpack 4 2) /\
      sites out1 = [n ++ "_alpha"; n ++ "_beta"]%string /\
      result out2 = inl (ValueError_unpack 2 4) /\
      sites out2 = [m ++ "_loc_loc"; m ++ "_hyper_scale";
                    m ++ "_scale_alpha"; m ++ "_scale_beta"]%string.
Proof.
  intros h Hnr n m s. cbn.
  repeat match goal with
         | |- context [match h ?X ?e ?s0 with pair _ _ => _ end] =>
             let E := fresh "E" in
             destruct (Hnr X e s0) as [? E];
             destruct (h X e s0) as [[? | ?] ?]; cbn in E;
             [discriminate E | clear E]; cbn
         end.
  repeat split.
Qed.

(** X18: [__str__] tells features apart: two features print the same only
    if they have the same class and the same name. *)
Theorem feature_str_is_injective :
  forall f g : Feature, Feature_str f = Feature_str g -> f = g.
Proof.
  intros [cf nf] [cg ng] H. unfold Feature_str in H. cbn in H.
  destruct cf, cg; cbn in H; try discriminate H;
    injection H as H; apply append_inj_r in H; now subst.
Qed.

End FeatureProperties.

(** * Runs on the concrete backend *)

(** C1: [CloneCommand(clone_count=2)] at trace-id 5, site "s".  The child
    of the first iteration is woken with a [ForkContinueCommand]; on its
    parent path that command returns, [child_fct] returns, and the child is
    back in the loop of [parent_fct] for the second iteration.  The process
    tree draws three trace-ids and records three pairs with the original
    trace-id, not two; a clone leaves through the [os._exit] meant for the
    parent. *)
Theorem clone_of_two_draws_three_trace_ids :
  let r := run_all (execute_control_site 1 (CloneCommand 2) 5%nat "s" no_extra)
                   (demo_world [] [Never; Deliver (PyCmd ForkContinueCommand)]) in
  fst r = [Parked; Parked; Parked; Exited 0; Parked; Exited 0] /\
  uuids_of (log (snd r)) = [0; 1; 2]%nat /\
  pairs_of (log (snd r))
  = [(5, 0, "s"); (5, 1, "s"); (5, 2, "s")]%nat /\
  List.length (uuids_of (log (snd r))) <> range_len 2.
Proof.
  vm_compute. repeat split. discriminate.
Qed.

(** C9: [ResampleCloneContinueCommand(seed=3, clone_count=2)] at trace-id
    5, site "s", followed into the child of the first iteration of the
    loop.  From the moment it calls [self.child_fct] (the world
    [demo_clone_started_world]) the claim has it do what
    [ResampleForkContinueCommand(3, uuid_on_sample=False)
    .execute_control_site] does there: that call returns [None] with the
    one trace-id 0 drawn so far.  The child does run it, but does not stop
    there: [parent_fct] drops what [child_fct] returned, the child is back
    in the loop, draws the trace-id 1, forks once more and leaves through
    [os._exit(0)]. *)
Theorem resample_clone_loop_child_runs_on_after_resample :
  let self := ResampleCloneContinueCommand (Some 3) 2 in
  let r := run (execute_control_site 0 self 5%nat "s" (one_arg demo_msg))
               demo_clone_loop_world in
  let claimed := run (spec_resample_clone_child 0 (Some 3) 0%nat "s"
                        (one_arg demo_msg))
                     demo_clone_started_world in
  r = and_then claimed
        (fun _ => clone_loop (dispatch_at 0) self 1 5%nat "s"
                    (one_arg demo_msg) ;; OsExit 0) /\
  fst claimed = Returned PyNone /\
  uuids_of (log (snd claimed)) = [0%nat] /\
  fst r = Exited 0 /\
  uuids_of (log (snd r)) = [0%nat; 1%nat] /\
  skipn (List.length (log (snd claimed))) (log (snd r))
  = [EvUuid 1%nat; EvFork 1; EvExit 0] /\
  fst r <> fst claimed.
Proof.
  cbv zeta. repeat split; try reflexivity.
  intro H. vm_compute in H. discriminate H.
Qed.

(** C2, counterexample: [add_lock_and_wait] fails, [wait_on_lock] raises
    and the connection it opened is still open. *)
Lemma wait_on_lock_leaks_when_wait_fails :
  let r := run (wait_on_lock 5%nat "s")
               (demo_world [] [WaitFails (StoreError "down")]) in
  fst r = Raised (StoreError "down") /\
  open_handles (log (snd r)) <> [].
Proof.
  vm_compute. split; [reflexivity | discriminate].
Qed.

(** ** The theorems at concrete inputs *)

Lemma resample_fixed_seed_is_reproducible_witness :
  np_seed_ok (Some 3) = true /\
  poutine_trace demo_parent_world = poutine_trace demo_other_world /\
  bind_msg (one_arg demo_msg) = inr demo_msg /\
  py_getitem demo_msg "type" = inr (PyStr "sample") /\
  py_eq_str (PyStr "sample") "sample" = true /\
  exists w1' w2' : World,
    run (execute_control_site 1 (ResampleForkContinueCommand (Some 3) true)
           5%nat "s" (one_arg demo_msg)) demo_parent_world
    = run (ForkContinue_execute (ResampleForkContinueCommand (Some 3) true)
             (fun _ _ _ => ForkContinue_parent_fct)
             (ForkContinue_child_fct (dispatch_at 1))
             (next_uuid demo_parent_world) "s" (one_arg demo_msg)) w1' /\
    run (execute_control_site 1 (ResampleForkContinueCommand (Some 3) true)
           5%nat "s" (one_arg demo_msg)) demo_other_world
    = run (ForkContinue_execute (ResampleForkContinueCommand (Some 3) true)
             (fun _ _ _ => ForkContinue_parent_fct)
             (ForkContinue_child_fct (dispatch_at 1))
             (next_uuid demo_other_world) "s" (one_arg demo_msg)) w2' /\
    log w1' = log demo_parent_world
              ++ resample_events (Some 3) "s" demo_msg demo_parent_world
              ++ pairing_events (next_handle demo_parent_world) 5%nat
                   (next_uuid demo_parent_world) "s" /\
    log w2' = log demo_other_world
              ++ resample_events (Some 3) "s" demo_msg demo_other_world
              ++ pairing_events (next_handle demo_other_world) 5%nat
                   (next_uuid demo_other_world) "s" /\
    poutine_trace w1' = poutine_trace w2' /\
    batch_log_pdf (poutine_trace w1') = batch_log_pdf (poutine_trace w2') /\
    poutine_trace w1'
    = fst (fst (pyro_sample (poutine_trace demo_parent_world) demo_msg
                  (np_seeded 3) (torch_seeded 3))).
Proof.
  split; [reflexivity |].
  split; [reflexivity |]. split; [reflexivity |].
  split; [reflexivity |]. split; [reflexivity |].
  exact (proj2 (@resample_fixed_seed_is_reproducible demo_backend 1 3 true
                  5%nat "s" (one_arg demo_msg) eq_refl)
               demo_parent_world demo_other_world demo_msg (PyStr "sample")
               eq_refl eq_refl eq_refl eq_refl).
Defined.

Lemma fork_continue_child_waits_once_then_dispatches_witness :
  pids demo_child_world = [0] /\
  wakes demo_child_world = [Deliver (PyCmd KillCommand)] /\
  exists w' : World,
    run (execute_control_site 1 ForkContinueCommand 5%nat "s" no_extra)
        demo_child_world
    = run (execute_control_site 0 KillCommand 5%nat "s" no_extra) w' /\
    log w' = log demo_child_world
             ++ persist_events 0%nat 5%nat "s" []
             ++ [EvFork 0]
             ++ wait_events 1%nat (5%nat, "s") (Deliver (PyCmd KillCommand))
             ++ release_events 1%nat (5%nat, "s") /\
    waits_of (wait_events 1%nat (5%nat, "s") (Deliver (PyCmd KillCommand))
              ++ release_events 1%nat (5%nat, "s")) = [(5%nat, "s")] /\
    poutine_trace w' = poutine_trace demo_child_world /\
    pids w' = [] /\ wakes w' = [].
Proof.
  split; [reflexivity |]. split; [reflexivity |].
  exact (proj2 (@fork_continue_child_waits_once_then_dispatches demo_backend
                  demo_child_world 0 5%nat "s" no_extra [] eq_refl)
               KillCommand [] eq_refl).
Defined.

Lemma log_pdf_publishes_then_parks_witness :
  wakes demo_child_world = [Deliver (PyCmd KillCommand)] /\
  exists w' : World,
    run (execute_control_site 1 LogPdfCommand 5%nat "s" no_extra)
        demo_child_world
    = run (execute_control_site 0 KillCommand 5%nat "s" no_extra) w' /\
    log w' = log demo_child_world
             ++ publish_events 0%nat (5%nat, "s") (PyInt 0)
             ++ wait_events 1%nat (5%nat, "s") (Deliver (PyCmd KillCommand))
             ++ release_events 1%nat (5%nat, "s") /\
    poutine_trace w' = poutine_trace demo_child_world /\
    wakes w' = [].
Proof.
  split; [reflexivity |].
  exact (proj2 (proj2 (@log_pdf_publishes_then_parks demo_backend
                         demo_child_world 0 5%nat "s" no_extra))
               KillCommand [] eq_refl).
Defined.

Lemma non_command_payload_is_fatal_witness :
  is_control_command (PyInt 3) = false /\
  wakes demo_bad_wake_world = [Deliver (PyInt 3)] /\
  (fst (run (ForkContinue_child_fct (dispatch_at 0) 5%nat "s" no_extra)
            demo_bad_wake_world)
   = Raised (AssertionError "Lock must be behavior for lock release") /\
   log (snd (run (ForkContinue_child_fct (dispatch_at 0) 5%nat "s" no_extra)
                 demo_bad_wake_world))
   = log demo_bad_wake_world
     ++ wait_events 0%nat (5%nat, "s") (Deliver (PyInt 3))
     ++ release_events 0%nat (5%nat, "s")) /\
  (fst (run (LogPdf_execute (dispatch_at 0) 5%nat "s" no_extra)
            demo_bad_wake_world)
   = Raised (AssertionError "Lock must be behavior for lock release") /\
   log (snd (run (LogPdf_execute (dispatch_at 0) 5%nat "s" no_extra)
                 demo_bad_wake_world))
   = log demo_bad_wake_world
     ++ publish_events 0%nat (5%nat, "s") (PyInt 0)
     ++ wait_events 1%nat (5%nat, "s") (Deliver (PyInt 3))
     ++ release_events 1%nat (5%nat, "s")).
Proof.
  split; [reflexivity |]. split; [reflexivity |].
  exact (@non_command_payload_is_fatal demo_backend demo_bad_wake_world
           (dispatch_at 0) 5%nat "s" no_extra (PyInt 3) []
           eq_refl eq_refl).
Defined.

Lemma resample_requires_sample_message_witness :
  np_seed_ok (Some 3) = true /\
  bind_msg (one_arg demo_param_msg) = inr demo_param_msg /\
  py_getitem demo_param_msg "type" = inr (PyStr "param") /\
  bind_msg (one_arg demo_msg) = inr demo_msg /\
  py_getitem demo_msg "type" = inr (PyStr "sample") /\
  pids demo_parent_world = [1] /\
  1 <> 0 /\
  wakes demo_parent_world = [] /\
  (fst (run (execute_control_site 0 (ResampleForkContinueCommand (Some 3) true)
               5%nat "s" (one_arg demo_param_msg)) demo_parent_world)
   = Raised resample_failure /\
   log (snd (run (execute_control_site 0
                    (ResampleForkContinueCommand (Some 3) true)
                    5%nat "s" (one_arg demo_param_msg)) demo_parent_world))
   = log demo_parent_world
     ++ seed_events (Some 3) demo_parent_world
     ++ [EvPrint "Conducting: {}" [ShVal demo_param_msg]] /\
   poutine_trace
     (snd (run (execute_control_site 0
                  (ResampleForkContinueCommand (Some 3) true)
                  5%nat "s" (one_arg demo_param_msg)) demo_parent_world))
   = poutine_trace demo_parent_world) /\
  fst (run (execute_control_site 0 (ResampleForkContinueCommand (Some 3) true)
              5%nat "s" (one_arg demo_msg)) demo_parent_world)
  = Returned PyNone /\
  fst (run (execute_control_site 0 (ResampleForkContinueCommand (Some 3) true)
              5%nat "s" (one_arg demo_msg)) demo_parent_world)
  <> Raised resample_failure.
Proof.
  assert (Hpid : 1 <> 0) by lia.
  split; [reflexivity |]. split; [reflexivity |]. split; [reflexivity |].
  split; [reflexivity |]. split; [reflexivity |]. split; [reflexivity |].
  split; [exact Hpid |]. split; [reflexivity |].
  split.
  - exact (@resample_requires_sample_message demo_backend demo_parent_world 0
             (Some 3) true 5%nat "s" (one_arg demo_param_msg) demo_param_msg
             (PyStr "param") eq_refl eq_refl eq_refl).
  - pose proof (@resample_requires_sample_message demo_backend
                  demo_parent_world 0 (Some 3) true 5%nat "s"
                  (one_arg demo_msg) demo_msg (PyStr "sample")
                  eq_refl eq_refl eq_refl) as [_ [Hparent Hquiet]].
    split; [exact (Hparent 1 [] eq_refl Hpid) | exact (Hquiet eq_refl)].
Defined.

Lemma resample_uuid_on_sample_substitutes_trace_id_witness :
  np_seed_ok (Some 3) = true /\
  bind_msg (one_arg demo_msg) = inr demo_msg /\
  py_getitem demo_msg "type" = inr (PyStr "sample") /\
  py_eq_str (PyStr "sample") "sample" = true /\
  exists w' : World,
    run (execute_control_site 0 (ResampleForkContinueCommand (Some 3) true)
           5%nat "s" (one_arg demo_msg)) demo_parent_world
    = run (ForkContinue_execute (ResampleForkContinueCommand (Some 3) true)
             (fun _ _ _ => ForkContinue_parent_fct)
             (ForkContinue_child_fct (dispatch_at 0))
             0%nat "s" (one_arg demo_msg)) w' /\
    log w' = log demo_parent_world
             ++ resample_events (Some 3) "s" demo_msg demo_parent_world
             ++ pairing_events 0%nat 5%nat 0%nat "s" /\
    uuids_of (pairing_events 0%nat 5%nat 0%nat "s") = [0%nat] /\
    pairs_of (pairing_events 0%nat 5%nat 0%nat "s") = [(5%nat, 0%nat, "s")] /\
    poutine_uuid w' = Some 0%nat /\
    poutine_trace w'
    = fst (fst (resampled (Some 3) demo_msg demo_parent_world)) /\
    exists rest : list Event,
      log (snd (run (execute_control_site 0
                       (ResampleForkContinueCommand (Some 3) true)
                       5%nat "s" (one_arg demo_msg)) demo_parent_world))
      = log w' ++ persist_events (next_handle w') 0%nat "s" (poutine_trace w')
               ++ rest.
Proof.
  split; [reflexivity |].
  split; [reflexivity |]. split; [reflexivity |]. split; [reflexivity |].
  exact (@resample_uuid_on_sample_substitutes_trace_id demo_backend
           demo_parent_world 0 (Some 3) true 5%nat "s" (one_arg demo_msg)
           demo_msg (PyStr "sample") eq_refl eq_refl eq_refl eq_refl).
Defined.

Lemma resample_abort_after_reseed_before_effects_witness :
  np_seed_ok None = true /\
  bind_msg (one_arg demo_param_msg) = inr demo_param_msg /\
  py_getitem demo_param_msg "type" = inr (PyStr "param") /\
  py_eq_str (PyStr "param") "sample" = false /\
  fst (run (execute_control_site 0 (ResampleForkContinueCommand None true)
              5%nat "s" (one_arg demo_param_msg)) demo_parent_world)
  = Raised resample_failure /\
  log (snd (run (execute_control_site 0 (ResampleForkContinueCommand None true)
                   5%nat "s" (one_arg demo_param_msg)) demo_parent_world))
  = log demo_parent_world
    ++ seed_events None demo_parent_world
    ++ [EvPrint "Conducting: {}" [ShVal demo_param_msg]] /\
  filter is_store_write
    (seed_events None demo_parent_world
     ++ [EvPrint "Conducting: {}" [ShVal demo_param_msg]]) = [] /\
  filter is_trace_mutation
    (seed_events None demo_parent_world
     ++ [EvPrint "Conducting: {}" [ShVal demo_param_msg]]) = [] /\
  poutine_trace
    (snd (run (execute_control_site 0 (ResampleForkContinueCommand None true)
                 5%nat "s" (one_arg demo_param_msg)) demo_parent_world))
  = poutine_trace demo_parent_world /\
  poutine_uuid
    (snd (run (execute_control_site 0 (ResampleForkContinueCommand None true)
                 5%nat "s" (one_arg demo_param_msg)) demo_parent_world))
  = poutine_uuid demo_parent_world /\
  np_rng
    (snd (run (execute_control_site 0 (ResampleForkContinueCommand None true)
                 5%nat "s" (one_arg demo_param_msg)) demo_parent_world))
  = snd (reseed None demo_parent_world) /\
  torch_rng
    (snd (run (execute_control_site 0 (ResampleForkContinueCommand None true)
                 5%nat "s" (one_arg demo_param_msg)) demo_parent_world))
  = torch_seeded (fst (reseed None demo_parent_world)).
Proof.
  split; [reflexivity |].
  split; [reflexivity |]. split; [reflexivity |]. split; [reflexivity |].
  exact (@resample_abort_after_reseed_before_effects demo_backend
           demo_parent_world 0 None true 5%nat "s" (one_arg demo_param_msg)
           demo_param_msg (PyStr "param") eq_refl eq_refl eq_refl eq_refl).
Defined.

(** ** The further properties at concrete inputs *)

Lemma demo_handler_never_raises : never_raises demo_handler.
Proof. intros X e s. destruct e; eexists; reflexivity. Qed.


Lemma fork_continue_parent_persists_and_returns_witness :
  pids demo_parent_world = [1] /\
  1 <> 0 /\
  fst (run (execute_control_site 1 ForkContinueCommand 5%nat "s" no_extra)
           demo_parent_world) = Returned PyNone /\
  trace_slot
    (log (snd (run (execute_control_site 1 ForkContinueCommand 5%nat "s"
                      no_extra) demo_parent_world))) 5%nat "s"
  = Some (dumps (PyDict (poutine_trace demo_parent_world))).
Proof.
  assert (Hpid : 1 <> 0) by lia.
  split; [reflexivity |]. split; [exact Hpid |].
  pose proof (@fork_continue_parent_persists_and_returns demo_backend
                demo_parent_world 1 5%nat "s" no_extra 1 [] eq_refl Hpid)
    as [Hr [_ [Hs _]]].
  split; [exact Hr | exact Hs].
Defined.

Lemma fork_continue_fork_failure_leaves_trace_stored_witness :
  pids (demo_world [] []) = [] /\
  fst (run (execute_control_site 1 ForkContinueCommand 5%nat "s" no_extra)
           (demo_world [] [])) = Raised (OSError "fork") /\
  trace_slot
    (log (snd (run (execute_control_site 1 ForkContinueCommand 5%nat "s"
                      no_extra) (demo_world [] [])))) 5%nat "s"
  = Some (dumps (PyDict (poutine_trace (demo_world [] [])))).
Proof.
  split; [reflexivity |].
  pose proof (@fork_continue_fork_failure_leaves_trace_stored demo_backend
                (demo_world [] []) 1 5%nat "s" no_extra eq_refl)
    as [Hr [_ Hs]].
  split; [exact Hr | exact Hs].
Defined.

Lemma clone_first_child_waits_at_original_key_witness :
  pids (demo_world [0] []) = [0] /\
  wakes (demo_world [0] []) = [] /\
  fst (run (execute_control_site 1 (CloneCommand 2) 5%nat "s" no_extra)
           (demo_world [0] [])) = Parked /\
  pairs_of (log (snd (run (execute_control_site 1 (CloneCommand 2) 5%nat "s"
                             no_extra) (demo_world [0] []))))
  = pairs_of (log (demo_world [0] [])).
Proof.
  split; [reflexivity |]. split; [reflexivity |].
  pose proof (@clone_first_child_waits_at_original_key demo_backend
                (demo_world [0] []) 1 2 5%nat "s" no_extra [] eq_refl)
    as [_ [_ H]].
  destruct (H eq_refl) as [Hr [_ [_ [Hp _]]]].
  split; [exact Hr | exact Hp].
Defined.



Lemma clone_parent_draws_count_ids_and_exits_witness :
  own_process demo_clone_parent_world /\
  (S (range_len 2) <= List.length (pids demo_clone_parent_world))%nat /\
  fst (run (execute_control_site 1 (CloneCommand 2) 5%nat "s" no_extra)
           demo_clone_parent_world) = Exited 0 /\
  uuids_of (log (snd (run (execute_control_site 1 (CloneCommand 2) 5%nat "s"
                             no_extra) demo_clone_parent_world)))
  = uuids_of (log demo_clone_parent_world)
    ++ seq (next_uuid demo_clone_parent_world) (range_len 2).
Proof.
  assert (Ho : own_process demo_clone_parent_world)
    by (repeat constructor; lia).
  assert (Hl : (S (range_len 2)
                <= List.length (pids demo_clone_parent_world))%nat)
    by (simpl; lia).
  split; [exact Ho |]. split; [exact Hl |].
  pose proof (@clone_parent_draws_count_ids_and_exits demo_backend
                demo_clone_parent_world 1 2 5%nat "s" no_extra Ho Hl)
    as [Hr [Hu _]].
  split; [exact Hr | exact Hu].
Defined.

Lemma clone_loop_child_pairs_then_waits_at_new_key_witness :
  1 <> 0 /\
  Forall (fun pid => pid <> 0) [2] /\
  pids demo_loop_child_world = 1 :: [2] ++ 0 :: [] /\
  range_len 2 = 2%nat /\
  wakes demo_loop_child_world = [] /\
  fst (run (execute_control_site 1 (CloneCommand 2) 5%nat "s" no_extra)
           demo_loop_child_world) = Parked /\
  pairs_of (log (snd (run (execute_control_site 1 (CloneCommand 2) 5%nat "s"
                             no_extra) demo_loop_child_world)))
  = pairs_of (log demo_loop_child_world)
    ++ [get_pair_name 5%nat
          (next_uuid demo_loop_child_world + 1)%nat "s"].
Proof.
  assert (Hp : 1 <> 0) by lia.
  assert (Hq : Forall (fun pid : Z => pid <> 0) [2])
    by (repeat constructor; lia).
  split; [exact Hp |]. split; [exact Hq |].
  split; [reflexivity |]. split; [reflexivity |]. split; [reflexivity |].
  pose proof (@clone_loop_child_pairs_then_waits_at_new_key demo_backend
                demo_loop_child_world 1 2 5%nat "s" no_extra
                1 [2] [] 0%nat Hp Hq eq_refl eq_refl eq_refl)
    as [Hr [_ [Hpk _]]].
  split; [exact Hr | exact Hpk].
Defined.

Lemma resample_message_is_bound_before_any_effect_witness :
  (forall m : PyVal,
      no_extra <> one_arg m /\ no_extra <> MkExtra [] [("msg", m)]) /\
  exists text : string,
    run (execute_control_site 1 (ResampleForkContinueCommand (Some 3) true)
           5%nat "s" no_extra) demo_parent_world
    = (Raised (TypeError text), demo_parent_world).
Proof.
  assert (Hshape : forall m : PyVal,
             no_extra <> one_arg m /\ no_extra <> MkExtra [] [("msg", m)])
    by (intro m; split; discriminate).
  split; [exact Hshape |].
  exact (proj1 (@resample_message_is_bound_before_any_effect
                  demo_backend demo_parent_world 1 (Some 3) true
                  5%nat "s" no_extra)
               Hshape).
Defined.

Lemma resample_message_without_type_raises_after_reseed_witness :
  np_seed_ok (Some 3) = true /\
  bind_msg (one_arg demo_untyped_msg) = inr demo_untyped_msg /\
  py_getitem demo_untyped_msg "type" = inl (KeyError "type") /\
  fst (run (execute_control_site 1 (ResampleForkContinueCommand (Some 3) true)
              5%nat "s" (one_arg demo_untyped_msg)) demo_parent_world)
  = Raised (KeyError "type") /\
  poutine_trace
    (snd (run (execute_control_site 1
                 (ResampleForkContinueCommand (Some 3) true)
                 5%nat "s" (one_arg demo_untyped_msg)) demo_parent_world))
  = poutine_trace demo_parent_world.
Proof.
  split; [reflexivity |]. split; [reflexivity |]. split; [reflexivity |].
  pose proof (@resample_message_without_type_raises_after_reseed demo_backend
                demo_parent_world 1 (Some 3) true 5%nat "s"
                (one_arg demo_untyped_msg) demo_untyped_msg (KeyError "type")
                eq_refl eq_refl eq_refl)
    as [Hr [_ [Ht _]]].
  split; [exact Hr | exact Ht].
Defined.

Lemma resample_seed_out_of_range_raises_first_witness :
  np_seed_ok demo_bad_seed = false /\
  bind_msg (one_arg demo_msg) = inr demo_msg /\
  run (execute_control_site 1 (ResampleForkContinueCommand demo_bad_seed true)
         5%nat "s" (one_arg demo_msg)) demo_parent_world
  = (Raised np_seed_failure, demo_parent_world).
Proof.
  split; [reflexivity |]. split; [reflexivity |].
  exact (proj1 (@resample_seed_out_of_range_raises_first demo_backend
                  demo_parent_world 1 demo_bad_seed true 5%nat "s"
                  (one_arg demo_msg) demo_msg eq_refl eq_refl)).
Defined.

Lemma log_pdf_woken_with_log_pdf_publishes_again_witness :
  wakes demo_log_pdf_wake_world = [Deliver (PyCmd LogPdfCommand)] /\
  exists rest : list Event,
    log (snd (run (execute_control_site 1 LogPdfCommand 5%nat "s" no_extra)
                  demo_log_pdf_wake_world))
    = log demo_log_pdf_wake_world
      ++ publish_events 0%nat (5%nat, "s") (PyInt 0)
      ++ wait_events 1%nat (5%nat, "s") (Deliver (PyCmd LogPdfCommand))
      ++ release_events 1%nat (5%nat, "s")
      ++ publish_events 2%nat (5%nat, "s") (PyInt 0)
      ++ wait_events 3%nat (5%nat, "s") Never
      ++ rest.
Proof.
  split; [reflexivity |].
  exact (@log_pdf_woken_with_log_pdf_publishes_again demo_backend
           demo_log_pdf_wake_world 0 5%nat "s" no_extra [] eq_refl).
Defined.

Lemma every_run_ends_witness :
  (List.length (wakes demo_child_world) <= 1)%nat /\
  fst (run (execute_control_site 1 ForkContinueCommand 5%nat "s" no_extra)
           demo_child_world) <> FuelOut.
Proof.
  assert (Hl : (List.length (wakes demo_child_world) <= 1)%nat)
    by (simpl; lia).
  split; [exact Hl |].
  exact (proj1 (@every_run_ends demo_backend demo_child_world 1
                  ForkContinueCommand 5%nat "s" no_extra Hl)).
Defined.

Lemma boolean_features_share_no_site_witness :
  "x" <> "y" /\
  forall site : string,
    In site (sites (frun demo_handler
                      (feature_pipeline (MkFeature Boolean "x") (OVal 0%nat))
                      0%nat)) ->
    In site (sites (frun demo_handler
                      (feature_pipeline (MkFeature Boolean "y") (OVal 0%nat))
                      0%nat)) ->
    False.
Proof.
  assert (Hxy : "x" <> "y") by discriminate.
  split; [exact Hxy |].
  intro site.
  exact (@boolean_features_share_no_site nat unit unit nat "x" "y" Hxy
           demo_handler demo_handler (OVal 0%nat) (OVal 0%nat) 0%nat 0%nat
           site).
Defined.

Lemma pipeline_returns_a_distribution_witness :
  never_raises demo_handler /\
  (exists d : unit,
      result (frun demo_handler
                (feature_pipeline (MkFeature Real "x") (OVal 0%nat)) 0%nat)
      = inr d) /\
  sites (frun demo_handler
           (feature_pipeline (MkFeature Real "x") (OVal 0%nat)) 0%nat)
  = ["x_loc_loc"; "x_hyper_scale"; "x_scale_alpha"; "x_scale_beta";
     "x_scale"; "x_loc"].
Proof.
  split; [exact demo_handler_never_raises |].
  exact (@pipeline_returns_a_distribution nat unit unit nat demo_handler
           demo_handler_never_raises (MkFeature Real "x") (OVal 0%nat) 0%nat).
Defined.

Lemma real_features_with_different_names_share_a_site_witness :
  never_raises demo_handler /\
  "x" <> "x_loc" /\
  In "x_loc_loc"
     (sites (frun demo_handler
               (feature_pipeline (MkFeature Real "x") (OVal 0%nat)) 0%nat)) /\
  In "x_loc_loc"
     (sites (frun demo_handler
               (feature_pipeline (MkFeature Real "x_loc") (OVal 0%nat))
               0%nat)).
Proof.
  split; [exact demo_handler_never_raises |].
  exact (@real_features_with_different_names_share_a_site nat unit unit nat
           demo_handler demo_handler
           demo_handler_never_raises demo_handler_never_raises
           "x" (OVal 0%nat) (OVal 0%nat) 0%nat 0%nat).
Defined.

Lemma pipeline_never_fails_to_unpack_witness :
  result (frun demo_handler
            (feature_pipeline (MkFeature Real "x") (OVal 0%nat)) 0%nat)
  <> inl (ValueError_unpack 2 4).
Proof.
  exact (@pipeline_never_fails_to_unpack nat unit unit nat demo_handler
           (MkFeature Real "x") (OVal 0%nat) 0%nat 2%nat 4%nat).
Defined.

Lemma shared_of_the_other_class_is_refused_witness :
  never_raises demo_handler /\
  result (frun demo_handler
            (fbind (sample_shared (MkFeature Boolean "b"))
                   (sample_group (MkFeature Real "r"))) 0%nat)
  = inl (ValueError_unpack 4 2) /\
  sites (frun demo_handler
           (fbind (sample_shared (MkFeature Boolean "b"))
                  (sample_group (MkFeature Real "r"))) 0%nat)
  = ["b_alpha"; "b_beta"] /\
  result (frun demo_handler
            (fbind (sample_shared (MkFeature Real "r"))
                   (sample_group (MkFeature Boolean "b"))) 0%nat)
  = inl (ValueError_unpack 2 4) /\
  sites (frun demo_handler
           (fbind (sample_shared (MkFeature Real "r"))
                  (sample_group (MkFeature Boolean "b"))) 0%nat)
  = ["r_loc_loc"; "r_hyper_scale"; "r_scale_alpha"; "r_scale_beta"].
Proof.
  split; [exact demo_handler_never_raises |].
  exact (@shared_of_the_other_class_is_refused nat unit unit nat demo_handler
           demo_handler_never_raises "b" "r" 0%nat).
Defined.

Lemma feature_str_is_injective_witness :
  Feature_str (MkFeature Real "x") = Feature_str (MkFeature Real "x") /\
  MkFeature Real "x" = MkFeature Real "x".
Proof.
  split; [reflexivity |].
  exact (@feature_str_is_injective (MkFeature Real "x") (MkFeature Real "x")
           eq_refl).
Defined.
